(** * AudioTrackStream: the sink writer engine of the OpenSL media player

    A shallow embedding of
    [library/jni/openslmediaplayer/source/AudioTrackStream.cpp].

    The control methods ([init], [start], [stop], the destructor) are
    functions from the object's fields to a result code, the new fields and
    the list of external calls they made.  The worker thread
    ([sinkWriterThreadEntryFunc] and below) is a function from the fields
    it reads and from a [World], which answers every call that leaves the
    file (the AudioTrack, JNI, the render callback, [operator new], the
    stop flag as the control thread sets it), to the list of calls it
    made.  Its loops take fuel: a run that has not left the loop when the
    fuel is spent reports [OutOfFuel] together with the calls made so far. *)

From Stdlib Require Import ZArith List Bool Lia.
Import ListNotations.
Local Open Scope Z_scope.

(** ** Machine integers *)

(** [uint32_t] arithmetic. *)
Definition wrap_u32 (z : Z) : Z := z mod 2 ^ 32.

(** Conversion to [int32_t], two's complement. *)
Definition wrap_s32 (z : Z) : Z := (z + 2 ^ 31) mod 2 ^ 32 - 2 ^ 31.

(** Width of [size_t]: 64 bits on the LP64 ABIs, 32 bits otherwise. *)
Definition size_t_bits (lp64 : bool) : Z := if lp64 then 64 else 32.

(** Conversion to [size_t]. *)
Definition to_size_t (lp64 : bool) (z : Z) : Z := z mod 2 ^ size_t_bits lp64.

(** ** Constants of the headers *)

(** [OpenSLMediaPlayerResultCodes.hpp]. *)
Inductive result_code : Type :=
| OSLMP_RESULT_SUCCESS
| OSLMP_RESULT_ILLEGAL_ARGUMENT
| OSLMP_RESULT_ILLEGAL_STATE
| OSLMP_RESULT_INTERNAL_ERROR.

(** [sample_format_type]: the two enumerators [init] names, and any other
    value the enumeration may hold. *)
Inductive sample_format_type : Type :=
| kAudioSampleFormatType_S16
| kAudioSampleFormatType_F32
| kAudioSampleFormatType_other (raw : Z).

(** [AudioFormat]: the two encodings the file names, and any other
    [int32_t] that [AudioTrack::getAudioFormat] may return. *)
Inductive encoding_type : Type :=
| ENCODING_PCM_16BIT
| ENCODING_PCM_FLOAT
| ENCODING_other (raw : Z).

(** The mode argument of [AudioTrack::create]. *)
Inductive track_mode : Type :=
| MODE_STREAM.

(** The optional last argument of [AudioTrack::write]. *)
Inductive write_mode : Type :=
| WRITE_DEFAULT
| WRITE_BLOCKING.

(** [sizeof(int16_t)] and [sizeof(float)]. *)
Definition sizeof_int16_t : Z := 2.
Definition sizeof_float : Z := 4.

(** ** The object *)

(** An [AudioTrack] object: its address and the arguments [create] was
    given. *)
Record AudioTrack : Type := mkAudioTrack {
  at_address : Z;
  at_stream_type : Z;
  at_sample_rate : Z;
  at_num_channels : Z;
  at_encoding : encoding_type;
  at_buffer_size : Z;
  at_mode : track_mode;
  at_session_id : Z
}.

(** The fields of [AudioTrackStream].  Raw pointers and [pthread_t] are
    integers with 0 for null; [track_] is the [std::unique_ptr]. *)
Record AudioTrackStream : Type := mkAudioTrackStream {
  vm_ : Z;
  env_ : Z;
  track_ : option AudioTrack;
  pt_handle_ : Z;
  buffer_size_in_frames_ : Z;
  buffer_block_count_ : Z;
  callback_func_ : Z;
  callback_args_ : Z;
  stop_request_ : bool
}.

Definition nullptr : Z := 0.

(** What the render callback is handed as its buffer. *)
Inductive buffer_ref : Type :=
| ArrayElements (array : Z)
| NativeBlock (address : Z).

(** Calls that leave the file, in the order they are made. *)
Inductive Event : Type :=
| EvGetJavaVM (env : Z)
| EvNewAudioTrack
| EvTrackCreate (stream_type sample_rate num_channels : Z)
    (encoding : encoding_type) (buffer_size : Z) (mode : track_mode)
    (session_id : Z)
| EvDeleteAudioTrack (address : Z)
| EvTrackRelease (address : Z)
| EvPthreadCreate (this : AudioTrackStream)
| EvPthreadJoin (handle : Z) (this : AudioTrackStream)
| EvAttachCurrentThread
| EvDetachCurrentThread
| EvGetAudioFormat
| EvPlay
| EvSupportsByteBufferMethods
| EvPause
| EvStop
| EvGetChannelCount
| EvNewShortArray (length array : Z)
| EvNewFloatArray (length array : Z)
| EvNewNative (elem_size count : Z)
| EvDeleteNative (address : Z)
| EvNewDirectByteBuffer (address size view : Z)
| EvFindRewindMethod
| EvDeleteLocalRef (ref : Z)
| EvArrayAcquire (array : Z)
| EvArrayRelease (array : Z)
| EvFillSineTone (array frames : Z)
| EvRenderCallback (func : Z) (buffer : buffer_ref)
    (format : sample_format_type) (num_channels frames args : Z)
| EvWriteArray (array offset count : Z) (mode : write_mode) (result : Z)
| EvWriteByteBuffer (view size : Z) (mode : write_mode) (result : Z)
| EvRewind (view : Z).

(** Field updates. *)
Definition with_track (s : AudioTrackStream) (vm env : Z) (t : AudioTrack)
    (frames blocks : Z) : AudioTrackStream :=
  mkAudioTrackStream vm env (Some t) (pt_handle_ s) frames blocks
    (callback_func_ s) (callback_args_ s) (stop_request_ s).

Definition with_callback (s : AudioTrackStream) (func args : Z)
    : AudioTrackStream :=
  mkAudioTrackStream (vm_ s) (env_ s) (track_ s) (pt_handle_ s)
    (buffer_size_in_frames_ s) (buffer_block_count_ s)
    func args (stop_request_ s).

Definition with_pt_handle (s : AudioTrackStream) (h : Z) : AudioTrackStream :=
  mkAudioTrackStream (vm_ s) (env_ s) (track_ s) h
    (buffer_size_in_frames_ s) (buffer_block_count_ s)
    (callback_func_ s) (callback_args_ s) (stop_request_ s).

Definition with_stop_request (s : AudioTrackStream) (b : bool)
    : AudioTrackStream :=
  mkAudioTrackStream (vm_ s) (env_ s) (track_ s) (pt_handle_ s)
    (buffer_size_in_frames_ s) (buffer_block_count_ s)
    (callback_func_ s) (callback_args_ s) b.

Definition without_track (s : AudioTrackStream) : AudioTrackStream :=
  mkAudioTrackStream nullptr (env_ s) None (pt_handle_ s)
    (buffer_size_in_frames_ s) (buffer_block_count_ s)
    (callback_func_ s) (callback_args_ s) (stop_request_ s).

(** The lifecycle state the fields stand for: no track before a successful
    [init], a track and no thread handle between runs, both while a worker
    is active. *)
Inductive lifecycle : Type :=
| Uninitialized
| Initialized
| Running.

Definition lifecycle_of (s : AudioTrackStream) : lifecycle :=
  match track_ s with
  | None => Uninitialized
  | Some _ => if pt_handle_ s =? 0 then Initialized else Running
  end.

(** ** Control thread *)

(** What the platform answers during one call of a control method. *)
Record Host : Type := mkHost {
  (** [env->GetJavaVM(&vm)]: the VM when it returns [JNI_OK]. *)
  host_GetJavaVM : option Z;
  (** [new(std::nothrow) AudioTrack()]: the address, or null. *)
  host_new_AudioTrack : option Z;
  (** [track->create(...)]. *)
  host_create : bool;
  (** [pthread_create]: its return value and the handle it stores. *)
  host_pthread_create : Z * Z
}.

(** The three components of what a control method gives back. *)
Definition result_of {S C : Type} (r : result_code * S * C) : result_code :=
  fst (fst r).

Definition state_of {S C : Type} (r : result_code * S * C) : S :=
  snd (fst r).

Definition calls_of {S C : Type} (r : result_code * S * C) : C :=
  snd r.

(** [AudioTrackStream::AudioTrackStream()]. *)
Definition constructor : AudioTrackStream :=
  mkAudioTrackStream nullptr nullptr None 0 0 0 nullptr nullptr false.

(** The old object a move assignment to [track_] deletes. *)
Definition delete_old_track (s : AudioTrackStream) : list Event :=
  match track_ s with
  | Some old => [EvDeleteAudioTrack (at_address old)]
  | None => []
  end.

(** The [switch (format)] at the head of [init]: the encoding it selects,
    or [None] for the [default] case. *)
Definition encoding_of (format : sample_format_type) : option encoding_type :=
  match format with
  | kAudioSampleFormatType_S16 => Some ENCODING_PCM_16BIT
  | kAudioSampleFormatType_F32 => Some ENCODING_PCM_FLOAT
  | kAudioSampleFormatType_other _ => None
  end.

(** The buffer size [init] hands to [AudioTrack::create]:
    [(buffer_size_in_frames * buffer_block_count * 1)] in [uint32_t]. *)
Definition create_buffer_size (buffer_size_in_frames buffer_block_count : Z)
    : Z :=
  wrap_u32 (wrap_u32 (buffer_size_in_frames * buffer_block_count) * 1).

(** [AudioTrackStream::init]. *)
Definition init (h : Host) (env stream_type : Z) (format : sample_format_type)
    (sample_rate_in_hz num_channels buffer_size_in_frames
     buffer_block_count : Z) (s : AudioTrackStream)
    : result_code * AudioTrackStream * list Event :=
  match encoding_of format with
  | None => (OSLMP_RESULT_ILLEGAL_ARGUMENT, s, [])
  | Some encoding =>
    if negb (num_channels =? 2) then (OSLMP_RESULT_ILLEGAL_ARGUMENT, s, [])
    else
      match host_GetJavaVM h with
      | None => (OSLMP_RESULT_INTERNAL_ERROR, s, [EvGetJavaVM env])
      | Some vm =>
        let buffer_size :=
          create_buffer_size buffer_size_in_frames buffer_block_count in
        let create :=
          EvTrackCreate stream_type sample_rate_in_hz num_channels encoding
            buffer_size MODE_STREAM 0 in
        match host_new_AudioTrack h with
        | None =>
          (OSLMP_RESULT_INTERNAL_ERROR, s, [EvGetJavaVM env; EvNewAudioTrack])
        | Some address =>
          if negb (host_create h) then
            (OSLMP_RESULT_INTERNAL_ERROR, s,
             [EvGetJavaVM env; EvNewAudioTrack; create;
              EvDeleteAudioTrack address])
          else
            let track :=
              mkAudioTrack address stream_type sample_rate_in_hz num_channels
                encoding buffer_size MODE_STREAM 0 in
            (OSLMP_RESULT_SUCCESS,
             with_track s vm env track buffer_size_in_frames
               buffer_block_count,
             [EvGetJavaVM env; EvNewAudioTrack; create] ++ delete_old_track s)
        end
      end
  end.

(** [AudioTrackStream::start]. *)
Definition start (h : Host) (callback args : Z) (s : AudioTrackStream)
    : result_code * AudioTrackStream * list Event :=
  if callback =? nullptr then (OSLMP_RESULT_ILLEGAL_ARGUMENT, s, [])
  else
    match track_ s with
    | None => (OSLMP_RESULT_ILLEGAL_STATE, s, [])
    | Some _ =>
      let s1 := with_callback s callback args in
      let '(pt_create_result, pt_handle) := host_pthread_create h in
      if negb (pt_create_result =? 0) then
        (OSLMP_RESULT_INTERNAL_ERROR, with_callback s1 nullptr nullptr,
         [EvPthreadCreate s1])
      else
        (OSLMP_RESULT_SUCCESS, with_pt_handle s1 pt_handle,
         [EvPthreadCreate s1])
    end.

(** [AudioTrackStream::stop].  The join is recorded with the fields as
    they are while the caller waits in it. *)
Definition stop (s : AudioTrackStream)
    : result_code * AudioTrackStream * list Event :=
  if pt_handle_ s =? 0 then (OSLMP_RESULT_SUCCESS, s, [])
  else
    let s1 := with_stop_request s true in
    let s2 := with_pt_handle s1 0 in
    let s3 := with_callback s2 nullptr nullptr in
    let s4 := with_stop_request s3 false in
    (OSLMP_RESULT_SUCCESS, s4, [EvPthreadJoin (pt_handle_ s1) s1]).

(** [AudioTrackStream::~AudioTrackStream]. *)
Definition destructor (s : AudioTrackStream)
    : AudioTrackStream * list Event :=
  let '(s1, joined) :=
    if pt_handle_ s =? 0 then (s, [])
    else
      let s1 := with_stop_request s true in
      (s1, [EvPthreadJoin (pt_handle_ s1) s1]) in
  match track_ s1 with
  | Some t =>
    if env_ s1 =? nullptr then
      (without_track s1, joined ++ [EvDeleteAudioTrack (at_address t)])
    else
      (without_track s1,
       joined ++ [EvTrackRelease (at_address t);
                  EvDeleteAudioTrack (at_address t)])
  | None => (without_track s1, joined)
  end.

(** ** Worker thread *)

(** What the worker meets during one run.  The fields it reads besides the
    stop flag ([track_], [buffer_size_in_frames_], [callback_func_],
    [callback_args_]) are those of the object it was created on. *)
Record World : Type := mkWorld {
  (** [vm_->AttachCurrentThread] returned [JNI_OK]. *)
  world_AttachCurrentThread : bool;
  (** [track_->getAudioFormat()]. *)
  world_getAudioFormat : encoding_type;
  (** [track_->play(env)] returned [AudioTrack::SUCCESS]. *)
  world_play_success : bool;
  (** [track_->supportsByteBufferMethods()]. *)
  world_supportsByteBufferMethods : bool;
  (** [track_->getChannelCount()]. *)
  world_getChannelCount : Z;
  (** [env->NewShortArray] or [env->NewFloatArray]: the array, or null. *)
  world_NewArray : Z;
  (** [new T[n]]: the block, or [None] when it throws. *)
  world_new_native : option Z;
  (** [env->NewDirectByteBuffer]: the view, or null. *)
  world_NewDirectByteBuffer : Z;
  (** [stop_request_] as read by the loop test of iteration [k]. *)
  world_stop_request : nat -> bool;
  (** What the write of iteration [k] returns. *)
  world_write : nat -> Z;
  (** The ABI: [size_t] has 64 bits. *)
  world_lp64 : bool
}.

(** How a run of the worker code ends: it returns; the process dies (an
    exception leaves a [noexcept] function, or a null [track_] or [vm_] is
    dereferenced); or the fuel of the model is spent inside the loop. *)
Inductive outcome : Type :=
| Returned
| Aborted
| OutOfFuel.

(** [LocalByteBuffer]: the fields the loops use. *)
Record LocalByteBuffer : Type := mkLocalByteBuffer {
  buffer_ : Z;
  size_ : Z;
  bb_ : Z
}.

Definition LocalByteBuffer_new (w : World) (buffer size : Z)
    : LocalByteBuffer * list Event :=
  let bb := world_NewDirectByteBuffer w in
  (mkLocalByteBuffer buffer size bb,
   [EvNewDirectByteBuffer buffer size bb; EvFindRewindMethod]).

Definition LocalByteBuffer_is_valid (b : LocalByteBuffer) : bool :=
  negb (bb_ b =? 0).

Definition LocalByteBuffer_size (b : LocalByteBuffer) : Z := size_ b.

Definition LocalByteBuffer_get (b : LocalByteBuffer) : Z := bb_ b.

Definition LocalByteBuffer_rewind (b : LocalByteBuffer) : list Event :=
  [EvRewind (bb_ b)].

(** [~LocalByteBuffer], on a thread whose [env] is not null. *)
Definition LocalByteBuffer_delete (b : LocalByteBuffer) : list Event :=
  if bb_ b =? 0 then [] else [EvDeleteLocalRef (bb_ b)].

Section Loops.

Variable w : World.
Variable s : AudioTrackStream.

(** [while (!stop_request_) { body; if (...) break; }]: [body k] gives the
    calls of iteration [k] and whether it leaves by [break]. *)
Fixpoint while_not_stop_request (body : nat -> list Event * bool)
    (fuel k : nat) : outcome * list Event :=
  match fuel with
  | O => (OutOfFuel, [])
  | S fuel' =>
    if world_stop_request w k then (Returned, [])
    else
      let '(calls, break) := body k in
      if break then (Returned, calls)
      else
        let '(o, rest) := while_not_stop_request body fuel' (S k) in
        (o, calls ++ rest)
  end.

(** The calls made when a function returns, after those of its body. *)
Definition at_return (r : outcome * list Event) (epilogue : list Event)
    : outcome * list Event :=
  match fst r with
  | Returned => (Returned, snd r ++ epilogue)
  | o => (o, snd r)
  end.

(** Body of the loop of [sinkWriterThreadLoopS16]. *)
Definition body_S16 (buffer num_channels buffer_size_in_frames
    num_data_write : Z) (k : nat) : list Event * bool :=
  let write_result := wrap_s32 (world_write w k) in
  ([EvArrayAcquire buffer;
    EvRenderCallback (callback_func_ s) (ArrayElements buffer)
      kAudioSampleFormatType_S16 num_channels buffer_size_in_frames
      (callback_args_ s);
    EvArrayRelease buffer;
    EvWriteArray buffer 0 num_data_write WRITE_DEFAULT write_result],
   negb (write_result =? num_data_write)).

(** [AudioTrackStream::sinkWriterThreadLoopS16]. *)
Definition sinkWriterThreadLoopS16 (fuel : nat) : outcome * list Event :=
  let num_channels := wrap_s32 (world_getChannelCount w) in
  let buffer_size_in_frames := wrap_s32 (buffer_size_in_frames_ s) in
  let num_data_write := wrap_s32 (num_channels * buffer_size_in_frames) in
  let buffer := world_NewArray w in
  let prologue :=
    [EvGetChannelCount;
     EvNewShortArray (wrap_s32 (num_channels * buffer_size_in_frames))
       buffer] in
  if buffer =? 0 then (Returned, prologue)
  else
    let r :=
      while_not_stop_request
        (body_S16 buffer num_channels buffer_size_in_frames num_data_write)
        fuel 0 in
    at_return (fst r, prologue ++ snd r) [EvDeleteLocalRef buffer].

(** Body of the loop of [sinkWriterThreadLoopFloat]: the call of the
    render callback is commented out in the source. *)
Definition body_Float (buffer num_data_write : Z) (k : nat)
    : list Event * bool :=
  let write_result := wrap_s32 (world_write w k) in
  ([EvWriteArray buffer 0 num_data_write WRITE_BLOCKING write_result],
   negb (write_result =? num_data_write)).

(** [AudioTrackStream::sinkWriterThreadLoopFloat]. *)
Definition sinkWriterThreadLoopFloat (fuel : nat) : outcome * list Event :=
  let num_channels := wrap_s32 (world_getChannelCount w) in
  let buffer_size_in_frames := wrap_s32 (buffer_size_in_frames_ s) in
  let num_data_write := wrap_s32 (num_channels * buffer_size_in_frames) in
  let buffer := world_NewArray w in
  let prologue :=
    [EvGetChannelCount;
     EvNewFloatArray (wrap_s32 (num_channels * buffer_size_in_frames))
       buffer] in
  if buffer =? 0 then (Returned, prologue)
  else
    let tone :=
      [EvArrayAcquire buffer;
       EvFillSineTone buffer (buffer_size_in_frames_ s);
       EvArrayRelease buffer] in
    let r := while_not_stop_request (body_Float buffer num_data_write) fuel 0 in
    at_return (fst r, prologue ++ tone ++ snd r) [EvDeleteLocalRef buffer].

(** Body of the loops of [sinkWriterThreadLoopS16ByteBuffer] and
    [sinkWriterThreadLoopFloatByteBuffer]: [write_result != bb.size()]
    compares in [size_t]. *)
Definition body_ByteBuffer (format : sample_format_type)
    (buffer : Z) (bb : LocalByteBuffer)
    (num_channels buffer_size_in_frames : Z) (k : nat) : list Event * bool :=
  let write_result := wrap_s32 (world_write w k) in
  let calls :=
    [EvRenderCallback (callback_func_ s) (NativeBlock buffer) format
       num_channels buffer_size_in_frames (callback_args_ s);
     EvWriteByteBuffer (LocalByteBuffer_get bb) (LocalByteBuffer_size bb)
       WRITE_BLOCKING write_result] in
  if negb (to_size_t (world_lp64 w) write_result =? LocalByteBuffer_size bb)
  then (calls, true)
  else (calls ++ LocalByteBuffer_rewind bb, false).

(** The two direct-memory loops differ in the format and the element
    size only. *)
Definition sinkWriterThreadLoopByteBuffer (format : sample_format_type)
    (elem_size : Z) (fuel : nat) : outcome * list Event :=
  let num_channels := wrap_s32 (world_getChannelCount w) in
  let buffer_size_in_frames := wrap_s32 (buffer_size_in_frames_ s) in
  let num_data_write := wrap_s32 (num_channels * buffer_size_in_frames) in
  let num_data_write_in_bytes :=
    to_size_t (world_lp64 w)
      (to_size_t (world_lp64 w) num_data_write * elem_size) in
  let alloc := [EvGetChannelCount; EvNewNative elem_size num_data_write] in
  match world_new_native w with
  | None => (Aborted, alloc)
  | Some buffer =>
    let '(bb, made) := LocalByteBuffer_new w buffer num_data_write_in_bytes in
    let epilogue := LocalByteBuffer_delete bb ++ [EvDeleteNative buffer] in
    if negb (LocalByteBuffer_is_valid bb) then
      (Returned, alloc ++ made ++ epilogue)
    else
      let r :=
        while_not_stop_request
          (body_ByteBuffer format buffer bb num_channels
             buffer_size_in_frames)
          fuel 0 in
      at_return (fst r, alloc ++ made ++ snd r) epilogue
  end.

(** [AudioTrackStream::sinkWriterThreadLoopS16ByteBuffer]. *)
Definition sinkWriterThreadLoopS16ByteBuffer (fuel : nat)
    : outcome * list Event :=
  sinkWriterThreadLoopByteBuffer kAudioSampleFormatType_S16 sizeof_int16_t
    fuel.

(** [AudioTrackStream::sinkWriterThreadLoopFloatByteBuffer]. *)
Definition sinkWriterThreadLoopFloatByteBuffer (fuel : nat)
    : outcome * list Event :=
  sinkWriterThreadLoopByteBuffer kAudioSampleFormatType_F32 sizeof_float fuel.

(** The loop [sinkWriterThreadProcess] selects. *)
Definition selected_loop (fuel : nat) : outcome * list Event :=
  match world_getAudioFormat w with
  | ENCODING_PCM_16BIT =>
    if world_supportsByteBufferMethods w
    then sinkWriterThreadLoopS16ByteBuffer fuel
    else sinkWriterThreadLoopS16 fuel
  | ENCODING_PCM_FLOAT =>
    if world_supportsByteBufferMethods w
    then sinkWriterThreadLoopFloatByteBuffer fuel
    else sinkWriterThreadLoopFloat fuel
  | ENCODING_other _ => (Returned, [])
  end.

(** [AudioTrackStream::sinkWriterThreadProcess]. *)
Definition sinkWriterThreadProcess (fuel : nat) : outcome * list Event :=
  match track_ s with
  | None => (Aborted, [])
  | Some _ =>
    let queries := [EvGetAudioFormat; EvPlay; EvSupportsByteBufferMethods] in
    if world_play_success w then
      let r := selected_loop fuel in
      at_return (fst r, queries ++ snd r) [EvPause; EvStop]
    else (Returned, queries)
  end.

(** [AudioTrackStream::sinkWriterThreadEntryFunc]: both the attach and
    the detach go through [thiz->vm_]. *)
Definition sinkWriterThreadEntryFunc (fuel : nat) : outcome * list Event :=
  if vm_ s =? nullptr then (Aborted, [])
  else if world_AttachCurrentThread w then
    let r := sinkWriterThreadProcess fuel in
    at_return (fst r, EvAttachCurrentThread :: snd r) [EvDetachCurrentThread]
  else (Returned, [EvAttachCurrentThread]).

End Loops.

(** ** Reachable objects and sample runs *)

(** The objects a single control thread can obtain from a fresh one by
    calling [init], [start] and [stop], whatever the platform answers. *)
Inductive reachable : AudioTrackStream -> Prop :=
| reachable_constructor : reachable constructor
| reachable_init : forall h env stream_type format rate channels frames
    blocks s,
    reachable s ->
    reachable
      (state_of (init h env stream_type format rate channels frames blocks s))
| reachable_start : forall h callback args s,
    reachable s -> reachable (state_of (start h callback args s))
| reachable_stop : forall s,
    reachable s -> reachable (state_of (stop s)).

(** The size in bytes of a sample of each format, as the direct-memory
    loops take it with [sizeof]. *)
Definition sample_size (format : sample_format_type) : Z :=
  match format with
  | kAudioSampleFormatType_S16 => sizeof_int16_t
  | kAudioSampleFormatType_F32 => sizeof_float
  | kAudioSampleFormatType_other _ => 0
  end.

(** A platform on which every call succeeds. *)
Definition good_host : Host := mkHost (Some 1000) (Some 2000) true (0, 7).

(** A fresh object after [init] with [{S16, 44100 Hz, 2 channels,
    256 frames, 4 blocks}]. *)
Definition initialized_engine : AudioTrackStream :=
  state_of
    (init good_host 500 3 kAudioSampleFormatType_S16 44100 2 256 4
       constructor).

(** The same object after a successful [start]. *)
Definition running_engine : AudioTrackStream :=
  state_of (start good_host 4096 8192 initialized_engine).

(** [start] as the specification words it, to compare with [start]:
    after the two tests it stores the callback and its argument, clears
    the stop flag, and creates the thread; when that fails it clears the
    stored callback. *)
Definition start_clearing_stop_flag (h : Host) (callback args : Z)
    (s : AudioTrackStream) : result_code * AudioTrackStream * list Event :=
  if callback =? nullptr then (OSLMP_RESULT_ILLEGAL_ARGUMENT, s, [])
  else
    match track_ s with
    | None => (OSLMP_RESULT_ILLEGAL_STATE, s, [])
    | Some _ =>
      let s1 := with_stop_request (with_callback s callback args) false in
      let '(pt_create_result, pt_handle) := host_pthread_create h in
      if negb (pt_create_result =? 0) then
        (OSLMP_RESULT_INTERNAL_ERROR, with_callback s1 nullptr nullptr,
         [EvPthreadCreate s1])
      else
        (OSLMP_RESULT_SUCCESS, with_pt_handle s1 pt_handle,
         [EvPthreadCreate s1])
    end.

(** The stop flag is raised from the poll of iteration [n] on. *)
Definition stop_requested_from (n : nat) (k : nat) : bool := (n <=? k)%nat.

(** A sink without byte-buffer methods playing float samples; every write
    takes the whole block of 512 samples; [stop] arrives during the second
    iteration. *)
Definition float_array_world : World :=
  mkWorld true ENCODING_PCM_FLOAT true false 2 3000 (Some 5000) 6000
    (stop_requested_from 2) (fun _ => 512) true.

(** A sink without byte-buffer methods playing 16-bit samples; the stop
    flag is never raised; the fifth write is short. *)
Definition short_write_world : World :=
  mkWorld true ENCODING_PCM_16BIT true false 2 3000 (Some 5000) 6000
    (fun _ => false) (fun k => if (k =? 4)%nat then 100 else 512) true.

(** A sink with byte-buffer methods playing 16-bit samples; the first
    write takes the 1024 bytes of the block, the second is short. *)
Definition direct_world : World :=
  mkWorld true ENCODING_PCM_16BIT true true 2 3000 (Some 5000) 6000
    (fun _ => false) (fun k => if (k =? 1)%nat then 1000 else 1024) true.

(** The calls a loop makes per iteration, as opposed to those around it. *)
Definition is_render (e : Event) : bool :=
  match e with
  | EvRenderCallback _ _ _ _ _ _ => true
  | _ => false
  end.

Definition is_write (e : Event) : bool :=
  match e with
  | EvWriteArray _ _ _ _ _ => true
  | EvWriteByteBuffer _ _ _ _ => true
  | _ => false
  end.

Definition is_pause_or_stop (e : Event) : bool :=
  match e with
  | EvPause => true
  | EvStop => true
  | _ => false
  end.

(** The block of one iteration: its number of samples, as every loop
    computes [num_data_write], and its number of bytes, as the
    direct-memory loops compute [num_data_write_in_bytes]. *)
Definition block_elements (w : World) (s : AudioTrackStream) : Z :=
  wrap_s32
    (wrap_s32 (world_getChannelCount w) * wrap_s32 (buffer_size_in_frames_ s)).

Definition block_bytes (w : World) (s : AudioTrackStream)
    (format : sample_format_type) : Z :=
  to_size_t (world_lp64 w)
    (to_size_t (world_lp64 w) (block_elements w s) * sample_size format).

(** The write of iteration [k] does not take the whole block, by the test
    of the loop that the encoding and the sink's capability select. *)
Definition short_write (w : World) (s : AudioTrackStream) (k : nat) : bool :=
  let write_result := wrap_s32 (world_write w k) in
  match world_getAudioFormat w with
  | ENCODING_PCM_16BIT =>
    if world_supportsByteBufferMethods w
    then negb (to_size_t (world_lp64 w) write_result
               =? block_bytes w s kAudioSampleFormatType_S16)
    else negb (write_result =? block_elements w s)
  | ENCODING_PCM_FLOAT =>
    if world_supportsByteBufferMethods w
    then negb (to_size_t (world_lp64 w) write_result
               =? block_bytes w s kAudioSampleFormatType_F32)
    else negb (write_result =? block_elements w s)
  | ENCODING_other _ => false
  end.

(** Further classes of calls, and how often a class occurs in a run. *)
Definition is_rewind (e : Event) : bool :=
  match e with
  | EvRewind _ => true
  | _ => false
  end.

Definition is_join (e : Event) : bool :=
  match e with
  | EvPthreadJoin _ _ => true
  | _ => false
  end.

Definition is_release (e : Event) : bool :=
  match e with
  | EvTrackRelease _ => true
  | _ => false
  end.

Definition is_attach_or_detach (e : Event) : bool :=
  match e with
  | EvAttachCurrentThread => true
  | EvDetachCurrentThread => true
  | _ => false
  end.

(** The calls of the managed-array transport and those of the
    direct-memory transport. *)
Definition is_array_call (e : Event) : bool :=
  match e with
  | EvNewShortArray _ _ => true
  | EvNewFloatArray _ _ => true
  | EvArrayAcquire _ => true
  | EvArrayRelease _ => true
  | EvFillSineTone _ _ => true
  | EvWriteArray _ _ _ _ _ => true
  | _ => false
  end.

Definition is_direct_call (e : Event) : bool :=
  match e with
  | EvNewNative _ _ => true
  | EvDeleteNative _ => true
  | EvNewDirectByteBuffer _ _ _ => true
  | EvFindRewindMethod => true
  | EvWriteByteBuffer _ _ _ _ => true
  | EvRewind _ => true
  | _ => false
  end.

(** The calls a loop function can make. *)
Definition is_loop_call (e : Event) : bool :=
  match e with
  | EvGetChannelCount => true
  | EvDeleteLocalRef _ => true
  | EvRenderCallback _ _ _ _ _ _ => true
  | _ => is_array_call e || is_direct_call e
  end.

Definition count_calls (p : Event -> bool) (calls : list Event) : nat :=
  length (filter p calls).

(** An object between runs: no thread handle, no callback, the stop flag
    down. *)
Definition idle (s : AudioTrackStream) : Prop :=
  pt_handle_ s = 0 /\ callback_func_ s = nullptr /\
  callback_args_ s = nullptr /\ stop_request_ s = false.

(** The render callback is handed what the object stores and what the
    track reports. *)
Definition render_as_stored (w : World) (s : AudioTrackStream) (e : Event)
    : Prop :=
  match e with
  | EvRenderCallback func _ format channels frames args =>
    func = callback_func_ s /\ args = callback_args_ s /\
    channels = wrap_s32 (world_getChannelCount w) /\
    frames = wrap_s32 (buffer_size_in_frames_ s) /\
    match world_getAudioFormat w with
    | ENCODING_PCM_16BIT => format = kAudioSampleFormatType_S16
    | ENCODING_PCM_FLOAT => format = kAudioSampleFormatType_F32
    | ENCODING_other _ => False
    end
  | _ => True
  end.

(** A call works on the one array, the one native block and the one view
    of the run. *)
Definition on_run_buffers (w : World) (e : Event) : Prop :=
  match e with
  | EvNewShortArray _ array => array = world_NewArray w
  | EvNewFloatArray _ array => array = world_NewArray w
  | EvArrayAcquire array => array = world_NewArray w
  | EvArrayRelease array => array = world_NewArray w
  | EvFillSineTone array _ => array = world_NewArray w
  | EvWriteArray array _ _ _ _ => array = world_NewArray w
  | EvRenderCallback _ (ArrayElements array) _ _ _ _ =>
    array = world_NewArray w
  | EvRenderCallback _ (NativeBlock block) _ _ _ _ =>
    world_new_native w = Some block
  | EvDeleteNative block => world_new_native w = Some block
  | EvNewDirectByteBuffer block _ view =>
    world_new_native w = Some block /\ view = world_NewDirectByteBuffer w
  | EvWriteByteBuffer view _ _ _ => view = world_NewDirectByteBuffer w
  | EvRewind view => view = world_NewDirectByteBuffer w
  | _ => True
  end.

(** The worker enters a loop: the encoding is one of the two, and the
    array, or the native block and its view, are there. *)
Definition loop_entered (w : World) : bool :=
  match world_getAudioFormat w with
  | ENCODING_other _ => false
  | _ =>
    if world_supportsByteBufferMethods w then
      match world_new_native w with
      | Some _ => negb (world_NewDirectByteBuffer w =? 0)
      | None => false
      end
    else negb (world_NewArray w =? 0)
  end.

(** The native block of the run, when there is one. *)
Definition run_block (w : World) : Z :=
  match world_new_native w with
  | Some block => block
  | None => 0
  end.

(** The view of the run on its native block. *)
Definition run_view (w : World) (s : AudioTrackStream)
    (format : sample_format_type) : LocalByteBuffer :=
  mkLocalByteBuffer (run_block w) (block_bytes w s format)
    (world_NewDirectByteBuffer w).

(** The body of the loop that the encoding and the sink's capability
    select. *)
Definition selected_body (w : World) (s : AudioTrackStream) (k : nat)
    : list Event * bool :=
  let channels := wrap_s32 (world_getChannelCount w) in
  let frames := wrap_s32 (buffer_size_in_frames_ s) in
  match world_getAudioFormat w with
  | ENCODING_PCM_16BIT =>
    if world_supportsByteBufferMethods w
    then body_ByteBuffer w s kAudioSampleFormatType_S16 (run_block w)
           (run_view w s kAudioSampleFormatType_S16) channels frames k
    else body_S16 w s (world_NewArray w) channels frames
           (block_elements w s) k
  | ENCODING_PCM_FLOAT =>
    if world_supportsByteBufferMethods w
    then body_ByteBuffer w s kAudioSampleFormatType_F32 (run_block w)
           (run_view w s kAudioSampleFormatType_F32) channels frames k
    else body_Float w (world_NewArray w) (block_elements w s) k
  | ENCODING_other _ => ([], true)
  end.

(** The render callback, the write and the rewind: the calls of an
    iteration that the properties below count. *)
Definition is_iteration_call (e : Event) : bool :=
  is_render e || is_write e || is_rewind e.

(** The float loop over a managed array is selected. *)
Definition float_array_selected (w : World) : bool :=
  match world_getAudioFormat w with
  | ENCODING_PCM_FLOAT => negb (world_supportsByteBufferMethods w)
  | _ => false
  end.

(** Allocations of a block of samples, creations of a view, and the
    pairs of calls that take and give back a resource. *)
Definition is_allocation (e : Event) : bool :=
  match e with
  | EvNewShortArray _ _ => true
  | EvNewFloatArray _ _ => true
  | EvNewNative _ _ => true
  | _ => false
  end.

Definition is_view_creation (e : Event) : bool :=
  match e with
  | EvNewDirectByteBuffer _ _ _ => true
  | _ => false
  end.





(** ** Control methods: what they return and what they leave *)

Lemma negb_eqb_true : forall a b : Z, negb (a =? b) = true <-> a <> b.
Proof.
  intros a b. rewrite negb_true_iff. apply Z.eqb_neq.
Qed.

Lemma encoding_of_none : forall format,
  format <> kAudioSampleFormatType_S16 ->
  format <> kAudioSampleFormatType_F32 ->
  encoding_of format = None.
Proof.
  intros [ | | raw] H16 H32; simpl; congruence.
Qed.

Lemma encoding_of_some : forall format,
  format = kAudioSampleFormatType_S16 \/ format = kAudioSampleFormatType_F32 ->
  exists encoding, encoding_of format = Some encoding.
Proof.
  intros format [-> | ->]; simpl; eauto.
Qed.

(** C4. [init] with a format other than S16 and F32, or with a channel
    count other than 2, returns [OSLMP_RESULT_ILLEGAL_ARGUMENT], makes no
    call at all (so no AudioTrack is allocated or created) and leaves the
    object as it was; with valid arguments and a failing creation of the
    AudioTrack (the allocation gives null, or [create] gives false) it
    returns [OSLMP_RESULT_INTERNAL_ERROR]. *)
Theorem init_invalid_argument_and_internal_error :
  forall h env stream_type format rate channels frames blocks s,
    ((format <> kAudioSampleFormatType_S16 /\
      format <> kAudioSampleFormatType_F32) \/ channels <> 2 ->
     init h env stream_type format rate channels frames blocks s
     = (OSLMP_RESULT_ILLEGAL_ARGUMENT, s, []))
    /\
    (format = kAudioSampleFormatType_S16 \/
     format = kAudioSampleFormatType_F32 ->
     channels = 2 ->
     host_new_AudioTrack h = None \/ host_create h = false ->
     result_of (init h env stream_type format rate channels frames blocks s)
     = OSLMP_RESULT_INTERNAL_ERROR /\
     state_of (init h env stream_type format rate channels frames blocks s)
     = s).
Proof.
  intros h env stream_type format rate channels frames blocks s. split.
  - intros [[H16 H32] | Hch]; unfold init.
    + now rewrite (encoding_of_none format H16 H32).
    + destruct (encoding_of format); [ | reflexivity ].
      apply negb_eqb_true in Hch. now rewrite Hch.
  - intros Hfmt -> Hfail. unfold init.
    destruct (encoding_of_some format Hfmt) as [encoding ->].
    simpl negb. cbv iota.
    destruct (host_GetJavaVM h) as [vm | ]; [ | split; reflexivity ].
    destruct Hfail as [Hnew | Hcreate].
    + rewrite Hnew. split; reflexivity.
    + destruct (host_new_AudioTrack h); [ | split; reflexivity ].
      rewrite Hcreate. split; reflexivity.
Qed.

Lemma init_invalid_argument_and_internal_error_witness :
  init good_host 500 3 (kAudioSampleFormatType_other 9) 44100 2 256 4
    constructor
  = (OSLMP_RESULT_ILLEGAL_ARGUMENT, constructor, [])
  /\ result_of
       (init (mkHost (Some 1000) (Some 2000) false (0, 7)) 500 3
          kAudioSampleFormatType_F32 44100 2 256 4 constructor)
     = OSLMP_RESULT_INTERNAL_ERROR.
Proof.
  split.
  - destruct (init_invalid_argument_and_internal_error good_host 500 3
                (kAudioSampleFormatType_other 9) 44100 2 256 4 constructor)
      as [Hbad _].
    apply Hbad. left. split; discriminate.
  - destruct (init_invalid_argument_and_internal_error
                (mkHost (Some 1000) (Some 2000) false (0, 7)) 500 3
                kAudioSampleFormatType_F32 44100 2 256 4 constructor)
      as [_ Hfail].
    apply Hfail.
    + right; reflexivity.
    + reflexivity.
    + right; reflexivity.
Defined.

(** C5. [start] with a null callback returns
    [OSLMP_RESULT_ILLEGAL_ARGUMENT] without calling [pthread_create]; when
    [pthread_create] fails, [start] returns [OSLMP_RESULT_INTERNAL_ERROR]
    with the stored callback and its argument null again, the track and
    the thread handle as they were, so that an Initialized object is still
    Initialized. *)
Theorem start_null_callback_and_thread_failure :
  forall h callback args s,
    start h nullptr args s = (OSLMP_RESULT_ILLEGAL_ARGUMENT, s, [])
    /\
    (callback <> nullptr ->
     track_ s <> None ->
     fst (host_pthread_create h) <> 0 ->
     let r := start h callback args s in
     result_of r = OSLMP_RESULT_INTERNAL_ERROR /\
     callback_func_ (state_of r) = nullptr /\
     callback_args_ (state_of r) = nullptr /\
     track_ (state_of r) = track_ s /\
     pt_handle_ (state_of r) = pt_handle_ s /\
     (lifecycle_of s = Initialized -> lifecycle_of (state_of r) = Initialized)).
Proof.
  intros h callback args s. split; [ reflexivity | ].
  intros Hcb Htrack Hrc. unfold start.
  apply Z.eqb_neq in Hcb. rewrite Hcb.
  destruct (track_ s) as [t | ] eqn:Et; [ | congruence ].
  destruct (host_pthread_create h) as [rc handle]. simpl in Hrc.
  apply negb_eqb_true in Hrc. rewrite Hrc. cbv zeta.
  unfold result_of, state_of, lifecycle_of. simpl. rewrite Et.
  repeat split; auto.
Qed.

Lemma start_null_callback_and_thread_failure_witness :
  start good_host nullptr 8192 initialized_engine
  = (OSLMP_RESULT_ILLEGAL_ARGUMENT, initialized_engine, [])
  /\ result_of
       (start (mkHost (Some 1000) (Some 2000) true (11, 0)) 4096 8192
          initialized_engine)
     = OSLMP_RESULT_INTERNAL_ERROR
  /\ lifecycle_of
       (state_of
          (start (mkHost (Some 1000) (Some 2000) true (11, 0)) 4096 8192
             initialized_engine))
     = Initialized.
Proof.
  pose proof (start_null_callback_and_thread_failure
                (mkHost (Some 1000) (Some 2000) true (11, 0)) 4096 8192
                initialized_engine) as [Hnull Hfail].
  split; [ exact Hnull | ].
  assert (Hcb : 4096 <> nullptr) by discriminate.
  assert (Htrack : track_ initialized_engine <> None) by discriminate.
  assert (Hrc : fst (host_pthread_create
                       (mkHost (Some 1000) (Some 2000) true (11, 0))) <> 0)
    by discriminate.
  destruct (Hfail Hcb Htrack Hrc) as (Hres & _ & _ & _ & _ & Hlife).
  split; [ exact Hres | apply Hlife; reflexivity ].
Defined.

(** C6. [stop] on an object without a thread handle returns
    [OSLMP_RESULT_SUCCESS], makes no call and changes nothing.  With a
    thread handle it raises the stop flag and joins that thread, whatever
    else holds: its one call is the join of the stored handle, made while
    the stop flag of the object is up and its handle, track, callback and
    argument are still those stored.  It returns [OSLMP_RESULT_SUCCESS] with
    the callback and its argument null, the stop flag and the thread handle
    cleared and the track kept: a Running object becomes Initialized, and
    a second [stop] is the no-op. *)
Theorem stop_noop_or_join :
  forall s,
    (pt_handle_ s = 0 -> stop s = (OSLMP_RESULT_SUCCESS, s, []))
    /\
    (pt_handle_ s <> 0 ->
     result_of (stop s) = OSLMP_RESULT_SUCCESS /\
     (exists this,
        calls_of (stop s) = [EvPthreadJoin (pt_handle_ s) this] /\
        stop_request_ this = true /\
        pt_handle_ this = pt_handle_ s /\
        track_ this = track_ s /\
        callback_func_ this = callback_func_ s /\
        callback_args_ this = callback_args_ s) /\
     calls_of (stop s)
     = [EvPthreadJoin (pt_handle_ s) (with_stop_request s true)] /\
     callback_func_ (state_of (stop s)) = nullptr /\
     callback_args_ (state_of (stop s)) = nullptr /\
     stop_request_ (state_of (stop s)) = false /\
     pt_handle_ (state_of (stop s)) = 0 /\
     track_ (state_of (stop s)) = track_ s /\
     (lifecycle_of s = Running ->
      lifecycle_of (state_of (stop s)) = Initialized) /\
     stop (state_of (stop s))
     = (OSLMP_RESULT_SUCCESS, state_of (stop s), [])).
Proof.
  intros s. unfold stop. split; intros Hpt.
  - rewrite Hpt. reflexivity.
  - apply Z.eqb_neq in Hpt. rewrite Hpt.
    unfold result_of, state_of, calls_of, lifecycle_of. simpl.
    split; [ reflexivity | ]. split.
    { exists (with_stop_request s true). repeat split. }
    repeat split; auto.
    destruct (track_ s); [ reflexivity | discriminate ].
Qed.

Lemma stop_noop_or_join_witness :
  stop initialized_engine = (OSLMP_RESULT_SUCCESS, initialized_engine, [])
  /\ (exists this,
        calls_of (stop running_engine) = [EvPthreadJoin 7 this] /\
        stop_request_ this = true)
  /\ calls_of (stop running_engine)
     = [EvPthreadJoin 7 (with_stop_request running_engine true)]
  /\ lifecycle_of (state_of (stop running_engine)) = Initialized.
Proof.
  split.
  - destruct (stop_noop_or_join initialized_engine) as [Hnoop _].
    apply Hnoop. reflexivity.
  - assert (Hpt : pt_handle_ running_engine <> 0) by discriminate.
    destruct (stop_noop_or_join running_engine) as [_ Hjoin].
    destruct (Hjoin Hpt)
      as (_ & (this & Hthis & Hflag & _) & Hcalls & _ & _ & _ & _ & _ &
          Hlife & _).
    split; [ exists this; split; [ exact Hthis | exact Hflag ] | ].
    split; [ exact Hcalls | apply Hlife; reflexivity ].
Defined.

(** C7, as the claim has it, fails on a Running object: [start] tests the
    callback and the track only, so a second [start] while the worker of
    the first is active returns [OSLMP_RESULT_SUCCESS]. *)
Lemma start_on_running_engine_succeeds :
  lifecycle_of running_engine = Running
  /\ result_of (start good_host 4096 8192 running_engine)
     = OSLMP_RESULT_SUCCESS
  /\ ~ (result_of (start good_host 4096 8192 running_engine)
        = OSLMP_RESULT_ILLEGAL_STATE
        <-> lifecycle_of running_engine <> Initialized).
Proof.
  split; [ reflexivity | ]. split; [ reflexivity | ].
  intros [_ H]. assert (Hne : lifecycle_of running_engine <> Initialized)
    by discriminate.
  specialize (H Hne). discriminate H.
Qed.

(** C7, amended. [start] returns [OSLMP_RESULT_ILLEGAL_STATE] exactly when
    the callback is not null and no track is stored; this is the case on a
    fresh object and on a fresh object after an [init] that failed; with a
    track stored, Initialized or Running, [start] does not return
    [OSLMP_RESULT_ILLEGAL_STATE]. *)
Theorem start_illegal_state_iff_no_track :
  forall h callback args s,
    (result_of (start h callback args s) = OSLMP_RESULT_ILLEGAL_STATE
     <-> callback <> nullptr /\ track_ s = None)
    /\
    (callback <> nullptr ->
     result_of (start h callback args constructor)
     = OSLMP_RESULT_ILLEGAL_STATE)
    /\
    (forall h' env stream_type format rate channels frames blocks,
       callback <> nullptr ->
       result_of
         (init h' env stream_type format rate channels frames blocks
            constructor) <> OSLMP_RESULT_SUCCESS ->
       result_of
         (start h callback args
            (state_of
               (init h' env stream_type format rate channels frames blocks
                  constructor)))
       = OSLMP_RESULT_ILLEGAL_STATE)
    /\
    (lifecycle_of s <> Uninitialized ->
     result_of (start h callback args s) <> OSLMP_RESULT_ILLEGAL_STATE).
Proof.
  intros h callback args s.
  assert (Hiff : forall s0,
    result_of (start h callback args s0) = OSLMP_RESULT_ILLEGAL_STATE
    <-> callback <> nullptr /\ track_ s0 = None).
  { intros s0. unfold start.
    destruct (callback =? nullptr) eqn:Ecb.
    - apply Z.eqb_eq in Ecb. split; [ discriminate | tauto ].
    - apply Z.eqb_neq in Ecb.
      destruct (track_ s0) as [t | ].
      + destruct (host_pthread_create h) as [rc handle].
        destruct (negb (rc =? 0)); split;
          try discriminate; intros [_ H]; discriminate H.
      + split; [ auto | reflexivity ]. }
  split; [ apply Hiff | ].
  split; [ intros Hcb; apply Hiff; auto | ].
  split.
  - intros h' env stream_type format rate channels frames blocks Hcb Hfail.
    apply Hiff. split; [ exact Hcb | ].
    revert Hfail. unfold init.
    destruct (encoding_of format); [ | reflexivity ].
    destruct (negb (channels =? 2)); [ reflexivity | ].
    destruct (host_GetJavaVM h'); [ | reflexivity ].
    destruct (host_new_AudioTrack h'); [ | reflexivity ].
    destruct (negb (host_create h')); [ reflexivity | ].
    intros Hfail. exfalso. apply Hfail. reflexivity.
  - intros Hlife Hill. apply Hiff in Hill. destruct Hill as [_ Hnone].
    apply Hlife. unfold lifecycle_of. now rewrite Hnone.
Qed.

Lemma start_illegal_state_iff_no_track_witness :
  result_of (start good_host 4096 8192 constructor)
  = OSLMP_RESULT_ILLEGAL_STATE
  /\ result_of
       (start good_host 4096 8192
          (state_of
             (init good_host 500 3 kAudioSampleFormatType_S16 44100 1 256 4
                constructor)))
     = OSLMP_RESULT_ILLEGAL_STATE
  /\ result_of (start good_host 4096 8192 running_engine)
     <> OSLMP_RESULT_ILLEGAL_STATE.
Proof.
  destruct (start_illegal_state_iff_no_track good_host 4096 8192
              running_engine) as (_ & Hfresh & Hfailed & Hstored).
  assert (Hcb : 4096 <> nullptr) by discriminate.
  split; [ exact (Hfresh Hcb) | ].
  split.
  - apply (Hfailed good_host 500 3 kAudioSampleFormatType_S16 44100 1 256 4
             Hcb).
    discriminate.
  - apply Hstored. discriminate.
Defined.

(** The stop flag is written by [stop] alone, which lowers it again. *)
Lemma init_keeps_stop_request :
  forall h env stream_type format rate channels frames blocks s,
    stop_request_
      (state_of (init h env stream_type format rate channels frames blocks s))
    = stop_request_ s.
Proof.
  intros. unfold init.
  destruct (encoding_of format); [ | reflexivity ].
  destruct (negb (channels =? 2)); [ reflexivity | ].
  destruct (host_GetJavaVM h); [ | reflexivity ].
  destruct (host_new_AudioTrack h); [ | reflexivity ].
  destruct (negb (host_create h)); reflexivity.
Qed.

Lemma start_keeps_stop_request :
  forall h callback args s,
    stop_request_ (state_of (start h callback args s)) = stop_request_ s.
Proof.
  intros. unfold start.
  destruct (callback =? nullptr); [ reflexivity | ].
  destruct (track_ s); [ | reflexivity ].
  destruct (host_pthread_create h) as [rc handle].
  destruct (negb (rc =? 0)); reflexivity.
Qed.

Lemma stop_lowers_stop_request :
  forall s,
    stop_request_ s = false -> stop_request_ (state_of (stop s)) = false.
Proof.
  intros s Hs. unfold stop.
  destruct (pt_handle_ s =? 0); [ exact Hs | reflexivity ].
Qed.

Lemma reachable_stop_request :
  forall s, reachable s -> stop_request_ s = false.
Proof.
  induction 1.
  - reflexivity.
  - now rewrite init_keeps_stop_request.
  - now rewrite start_keeps_stop_request.
  - now apply stop_lowers_stop_request.
Qed.

(** [start] itself does not write the stop flag: the thread is created
    on an object whose flag is as [start] found it. *)
Lemma start_does_not_write_stop_request :
  forall h callback args s this,
    In (EvPthreadCreate this) (calls_of (start h callback args s)) ->
    stop_request_ this = stop_request_ s.
Proof.
  intros h callback args s this. unfold start.
  destruct (callback =? nullptr); [ intros [] | ].
  destruct (track_ s); [ | intros [] ].
  destruct (host_pthread_create h) as [rc handle].
  destruct (negb (rc =? 0)); intros [H | []]; injection H as <-; reflexivity.
Qed.

Lemma with_stop_request_same : forall s,
  stop_request_ s = false -> with_stop_request s false = s.
Proof.
  intros [vm env track pt frames blocks func cargs flag]. simpl.
  intros ->. reflexivity.
Qed.

(** C8. On every object that one control thread reaches from a fresh one
    by [init], [start] and [stop], [start] does what a [start] that clears
    the stop flag before creating the thread does; a successful call
    creates one thread, on the object in which the callback and its
    argument are stored and the stop flag is down, keeps the track, and
    leaves the callback, the argument and the lowered flag in the object
    it returns.  (The flag is down because the constructor lowers it and
    [stop] lowers it again after the join.) *)
Theorem start_stores_callback_before_thread :
  forall h callback args s,
    reachable s ->
    start h callback args s = start_clearing_stop_flag h callback args s /\
    (result_of (start h callback args s) = OSLMP_RESULT_SUCCESS ->
     exists this,
       calls_of (start h callback args s) = [EvPthreadCreate this] /\
       callback_func_ this = callback /\
       callback_args_ this = args /\
       stop_request_ this = false /\
       track_ this = track_ s /\
       track_ this <> None /\
       stop_request_ (state_of (start h callback args s)) = false /\
       callback_func_ (state_of (start h callback args s)) = callback /\
       callback_args_ (state_of (start h callback args s)) = args).
Proof.
  intros h callback args s Hs.
  pose proof (reachable_stop_request s Hs) as Hflag. split.
  - unfold start, start_clearing_stop_flag.
    destruct (callback =? nullptr); [ reflexivity | ].
    destruct (track_ s); [ | reflexivity ].
    rewrite (with_stop_request_same (with_callback s callback args) Hflag).
    reflexivity.
  - unfold start.
    destruct (callback =? nullptr); [ discriminate | ].
    destruct (track_ s) eqn:Et; [ | discriminate ].
    destruct (host_pthread_create h) as [rc handle].
    destruct (negb (rc =? 0)); [ discriminate | ].
    intros _. exists (with_callback s callback args).
    unfold calls_of, state_of. simpl. rewrite Et.
    repeat split; auto. discriminate.
Qed.

Lemma start_stores_callback_before_thread_witness :
  exists this,
    calls_of (start good_host 4096 8192 initialized_engine)
    = [EvPthreadCreate this] /\
    callback_func_ this = 4096 /\
    callback_args_ this = 8192 /\
    stop_request_ this = false.
Proof.
  assert (Hreach : reachable initialized_engine).
  { unfold initialized_engine.
    apply reachable_init, reachable_constructor. }
  destruct (start_stores_callback_before_thread good_host 4096 8192
              initialized_engine Hreach) as (_ & Hok).
  destruct (Hok eq_refl)
    as (this & Hcalls & Hfunc & Hargs & Hflag & _).
  exists this. repeat split; auto.
Defined.

(** C9, as the claim has it, fails on [{S16, 256 frames, 4 blocks}]:
    [create] is asked for 1024, the number of frames, and not for the
    2048 that scaling by the two bytes of a 16-bit sample gives. *)
Lemma init_buffer_size_is_not_scaled :
  calls_of
    (init good_host 500 3 kAudioSampleFormatType_S16 44100 2 256 4
       constructor)
  = [EvGetJavaVM 500; EvNewAudioTrack;
     EvTrackCreate 3 44100 2 ENCODING_PCM_16BIT 1024 MODE_STREAM 0]
  /\ 1024 <> 256 * 4 * sample_size kAudioSampleFormatType_S16.
Proof.
  split; [ reflexivity | discriminate ].
Qed.

(** C9, amended. When [init] reaches the creation of the AudioTrack (valid
    arguments, the VM found, the object allocated), it calls [create] once,
    in streaming mode, with the encoding of the format and with the buffer
    size [buffer_size_in_frames * buffer_block_count * 1] of [uint32_t]
    arithmetic, which is the product of the two counts when that fits in
    32 bits: the size is a number of frames, whatever the sample size. *)
Theorem init_creates_track_for_frames :
  forall h env stream_type format rate frames blocks s encoding vm address,
    encoding_of format = Some encoding ->
    host_GetJavaVM h = Some vm ->
    host_new_AudioTrack h = Some address ->
    let calls := calls_of (init h env stream_type format rate 2 frames blocks s) in
    (exists rest,
       calls = [EvGetJavaVM env; EvNewAudioTrack;
                EvTrackCreate stream_type rate 2 encoding
                  (create_buffer_size frames blocks) MODE_STREAM 0] ++ rest
       /\ forall e, In e rest -> exists a, e = EvDeleteAudioTrack a) /\
    create_buffer_size frames blocks = (frames * blocks) mod 2 ^ 32 /\
    (0 <= frames * blocks < 2 ^ 32 ->
     create_buffer_size frames blocks = frames * blocks).
Proof.
  intros h env stream_type format rate frames blocks s encoding vm address
    Henc Hvm Hnew calls.
  assert (Hsize : create_buffer_size frames blocks = (frames * blocks) mod 2 ^ 32).
  { unfold create_buffer_size, wrap_u32. rewrite Z.mul_1_r.
    apply Z.mod_mod. discriminate. }
  split; [ | split; [ exact Hsize | ] ].
  - subst calls. unfold init. rewrite Henc, Hvm, Hnew. simpl negb. cbv iota.
    destruct (negb (host_create h)); unfold calls_of; simpl.
    + eexists. split; [ reflexivity | ].
      intros e [<- | []]. eauto.
    + exists (delete_old_track s). split; [ reflexivity | ].
      unfold delete_old_track. destruct (track_ s); intros e [].
      * subst e. eauto.
      * contradiction.
  - intros Hfit. rewrite Hsize. now apply Z.mod_small.
Qed.

Lemma init_creates_track_for_frames_witness :
  create_buffer_size 256 4 = 256 * 4.
Proof.
  assert (Henc : encoding_of kAudioSampleFormatType_F32
                 = Some ENCODING_PCM_FLOAT) by reflexivity.
  assert (Hvm : host_GetJavaVM good_host = Some 1000) by reflexivity.
  assert (Hnew : host_new_AudioTrack good_host = Some 2000) by reflexivity.
  destruct (init_creates_track_for_frames good_host 500 3
              kAudioSampleFormatType_F32 44100 256 4 constructor
              ENCODING_PCM_FLOAT 1000 2000 Henc Hvm Hnew) as (_ & _ & Hfit).
  apply Hfit. lia.
Defined.

(** C10. [init] does not look at the state of the object: with valid
    arguments and a platform on which every call succeeds, on an object
    that already stores a track (Initialized or Running), it returns
    [OSLMP_RESULT_SUCCESS], not [OSLMP_RESULT_ILLEGAL_STATE], and stores the
    newly created track in place of the old one; [release] is not called on
    the old track, whose object the move assignment deletes; the thread
    handle is as it was. *)
Theorem init_overwrites_stored_track :
  forall h env stream_type format rate frames blocks s old encoding vm
    address,
    track_ s = Some old ->
    encoding_of format = Some encoding ->
    host_GetJavaVM h = Some vm ->
    host_new_AudioTrack h = Some address ->
    host_create h = true ->
    let r := init h env stream_type format rate 2 frames blocks s in
    result_of r = OSLMP_RESULT_SUCCESS /\
    result_of r <> OSLMP_RESULT_ILLEGAL_STATE /\
    track_ (state_of r)
    = Some (mkAudioTrack address stream_type rate 2 encoding
              (create_buffer_size frames blocks) MODE_STREAM 0) /\
    calls_of r
    = [EvGetJavaVM env; EvNewAudioTrack;
       EvTrackCreate stream_type rate 2 encoding
         (create_buffer_size frames blocks) MODE_STREAM 0;
       EvDeleteAudioTrack (at_address old)] /\
    (forall a, ~ In (EvTrackRelease a) (calls_of r)) /\
    pt_handle_ (state_of r) = pt_handle_ s /\
    lifecycle_of (state_of r) = lifecycle_of s.
Proof.
  intros h env stream_type format rate frames blocks s old encoding vm
    address Hold Henc Hvm Hnew Hcreate r.
  subst r. unfold init, delete_old_track.
  rewrite Henc, Hvm, Hnew, Hcreate, Hold.
  unfold result_of, state_of, calls_of, lifecycle_of. simpl. rewrite Hold.
  repeat split; try discriminate.
  intros a [H | [H | [H | [H | []]]]]; discriminate H.
Qed.

Lemma init_overwrites_stored_track_witness :
  lifecycle_of running_engine = Running
  /\ result_of
       (init (mkHost (Some 1000) (Some 2400) true (0, 7)) 500 3
          kAudioSampleFormatType_F32 48000 2 128 8 running_engine)
     = OSLMP_RESULT_SUCCESS
  /\ calls_of
       (init (mkHost (Some 1000) (Some 2400) true (0, 7)) 500 3
          kAudioSampleFormatType_F32 48000 2 128 8 running_engine)
     = [EvGetJavaVM 500; EvNewAudioTrack;
        EvTrackCreate 3 48000 2 ENCODING_PCM_FLOAT
          (create_buffer_size 128 8) MODE_STREAM 0;
        EvDeleteAudioTrack 2000].
Proof.
  split; [ reflexivity | ].
  assert (Hold : track_ running_engine
                 = Some (mkAudioTrack 2000 3 44100 2 ENCODING_PCM_16BIT
                           (create_buffer_size 256 4) MODE_STREAM 0))
    by reflexivity.
  assert (Henc : encoding_of kAudioSampleFormatType_F32
                 = Some ENCODING_PCM_FLOAT) by reflexivity.
  destruct (init_overwrites_stored_track
              (mkHost (Some 1000) (Some 2400) true (0, 7)) 500 3
              kAudioSampleFormatType_F32 48000 128 8 running_engine _
              ENCODING_PCM_FLOAT 1000 2400 Hold Henc eq_refl eq_refl eq_refl)
    as (Hres & _ & _ & Hcalls & _).
  split; [ exact Hres | exact Hcalls ].
Defined.

(** ** The loops: general facts *)

Section LoopFacts.

Variable w : World.

(** An element of a concatenation lies in its first or in its second
    part. *)
Lemma app_split_at : forall (l1 l2 b : list Event) e a,
  l1 ++ l2 = b ++ e :: a ->
  (exists a1, l1 = b ++ e :: a1 /\ a = a1 ++ l2) \/
  (exists b2, b = l1 ++ b2 /\ l2 = b2 ++ e :: a).
Proof.
  induction l1 as [ | x l1 IH]; intros l2 b e a H.
  - right. exists b. split; [ reflexivity | exact H ].
  - destruct b as [ | y b]; simpl in H; injection H as -> H.
    + left. exists l1. split; [ reflexivity | now rewrite H ].
    + destruct (IH _ _ _ _ H) as [(a1 & -> & ->) | (b2 & -> & ->)].
      * left. exists a1. split; reflexivity.
      * right. exists b2. split; reflexivity.
Qed.

Lemma at_return_outcome : forall r epilogue,
  fst (at_return r epilogue) = fst r.
Proof.
  intros [[ | | ] calls] epilogue; reflexivity.
Qed.

Lemma at_return_calls : forall r epilogue,
  snd (at_return r epilogue)
  = snd r ++ match fst r with Returned => epilogue | _ => [] end.
Proof.
  intros [[ | | ] calls] epilogue; simpl; now rewrite ?app_nil_r.
Qed.

(** One unfolding of the loop. *)
Lemma while_step : forall body fuel k,
  while_not_stop_request w body (S fuel) k
  = if world_stop_request w k then (Returned, [])
    else if snd (body k) then (Returned, fst (body k))
    else (fst (while_not_stop_request w body fuel (S k)),
          fst (body k) ++ snd (while_not_stop_request w body fuel (S k))).
Proof.
  intros body fuel k. simpl.
  destruct (world_stop_request w k); [ reflexivity | ].
  destruct (body k) as [calls [ | ]]; [ reflexivity | ].
  destruct (while_not_stop_request w body fuel (S k)). reflexivity.
Qed.

(** The loop is left once the stop flag is seen raised or an iteration
    breaks: [n + 1] units of fuel are enough for an exit at iteration
    [k + n]. *)
Lemma while_returns : forall body n fuel k,
  world_stop_request w (k + n) = true \/ snd (body (k + n)%nat) = true ->
  (n < fuel)%nat ->
  fst (while_not_stop_request w body fuel k) = Returned.
Proof.
  induction n as [ | n IH]; intros fuel k Hexit Hfuel;
    (destruct fuel as [ | fuel]; [ lia | ]); rewrite while_step.
  - rewrite Nat.add_0_r in Hexit.
    destruct (world_stop_request w k); [ reflexivity | ].
    destruct (snd (body k)); [ reflexivity | ].
    destruct Hexit; discriminate.
  - destruct (world_stop_request w k); [ reflexivity | ].
    destruct (snd (body k)); [ reflexivity | ].
    simpl. apply IH; [ | lia ].
    now replace (S k + n)%nat with (k + S n)%nat by lia.
Qed.

(** What holds of the calls of every iteration holds of the calls of the
    loop. *)
Lemma while_Forall : forall (P : Event -> Prop) body,
  (forall k, Forall P (fst (body k))) ->
  forall fuel k, Forall P (snd (while_not_stop_request w body fuel k)).
Proof.
  intros P body Hbody. induction fuel as [ | fuel IH]; intros k.
  - constructor.
  - rewrite while_step.
    destruct (world_stop_request w k); [ constructor | ].
    destruct (snd (body k)); simpl; [ apply Hbody | ].
    apply Forall_app. split; [ apply Hbody | apply IH ].
Qed.

(** A call of the loop belongs to one iteration; when that iteration
    breaks, nothing follows its calls, and the loop has returned. *)
Lemma while_calls_inv : forall body fuel k b e a,
  snd (while_not_stop_request w body fuel k) = b ++ e :: a ->
  exists j b0 b1 a1 a2,
    b = b0 ++ b1 /\
    fst (body j) = b1 ++ e :: a1 /\
    a = a1 ++ a2 /\
    (snd (body j) = true ->
     a2 = [] /\ fst (while_not_stop_request w body fuel k) = Returned).
Proof.
  intros body. induction fuel as [ | fuel IH]; intros k b e a H.
  - destruct b; discriminate H.
  - rewrite while_step in H |- *.
    destruct (world_stop_request w k); [ destruct b; discriminate H | ].
    destruct (snd (body k)) eqn:Ebreak; simpl in H |- *.
    + exists k, [], b, a, []. rewrite app_nil_r. repeat split; auto.
    + apply app_split_at in H.
      destruct H as [(a1 & Hcalls & ->) | (b2 & -> & Hrest)].
      * exists k, [], b, a1,
          (snd (while_not_stop_request w body fuel (S k))).
        repeat split; auto; rewrite Ebreak in *; discriminate.
      * destruct (IH _ _ _ _ Hrest)
          as (j & b0 & b1 & a1 & a2 & -> & Hj & -> & Hbreak).
        exists j, (fst (body k) ++ b0), b1, a1, a2.
        rewrite app_assoc. repeat split; auto; now apply Hbreak.
Qed.

End LoopFacts.

(** ** The direct-memory loops *)

Section ByteBufferLoop.

Variable w : World.
Variable s : AudioTrackStream.

Lemma split_In : forall (l b : list Event) e a, l = b ++ e :: a -> In e l.
Proof.
  intros l b e a ->. apply in_elt.
Qed.

(** The write of an iteration follows the render callback of that
    iteration; the rewind follows it exactly when it took the whole
    block, and the iteration breaks exactly when it did not. *)
Lemma body_ByteBuffer_write :
  forall format buffer bb channels frames j b1 view size mode result a1,
    fst (body_ByteBuffer w s format buffer bb channels frames j)
    = b1 ++ EvWriteByteBuffer view size mode result :: a1 ->
    view = bb_ bb /\ size = size_ bb /\
    b1 = [EvRenderCallback (callback_func_ s) (NativeBlock buffer) format
            channels frames (callback_args_ s)] /\
    (to_size_t (world_lp64 w) result = size ->
     a1 = [EvRewind view] /\
     snd (body_ByteBuffer w s format buffer bb channels frames j) = false) /\
    (to_size_t (world_lp64 w) result <> size ->
     a1 = [] /\
     snd (body_ByteBuffer w s format buffer bb channels frames j) = true).
Proof.
  intros format buffer bb channels frames j b1 view size mode result a1.
  unfold body_ByteBuffer, LocalByteBuffer_get, LocalByteBuffer_size,
    LocalByteBuffer_rewind.
  destruct (to_size_t (world_lp64 w) (wrap_s32 (world_write w j)) =? size_ bb)
    eqn:Efull; simpl; intros H;
    (destruct b1 as [ | x b1]; simpl in H; [ discriminate H | ]);
    injection H as <- H;
    (destruct b1 as [ | y b1]; simpl in H;
     [ | injection H as _ H; apply split_In in H; simpl in H;
         exfalso; intuition discriminate ]);
    injection H as <- <- <- <- <-.
  - apply Z.eqb_eq in Efull. repeat split; auto; congruence.
  - apply Z.eqb_neq in Efull. repeat split; auto; congruence.
Qed.

(** The calls of a direct-memory loop around those of its iterations. *)
Lemma ByteBuffer_calls : forall format fuel buffer,
  world_new_native w = Some buffer ->
  world_NewDirectByteBuffer w <> 0 ->
  let bb :=
    mkLocalByteBuffer buffer (block_bytes w s format)
      (world_NewDirectByteBuffer w) in
  let r :=
    while_not_stop_request w
      (body_ByteBuffer w s format buffer bb
         (wrap_s32 (world_getChannelCount w))
         (wrap_s32 (buffer_size_in_frames_ s)))
      fuel 0 in
  sinkWriterThreadLoopByteBuffer w s format (sample_size format) fuel
  = at_return
      (fst r,
       [EvGetChannelCount;
        EvNewNative (sample_size format) (block_elements w s);
        EvNewDirectByteBuffer buffer (block_bytes w s format)
          (world_NewDirectByteBuffer w);
        EvFindRewindMethod] ++ snd r)
      [EvDeleteLocalRef (world_NewDirectByteBuffer w); EvDeleteNative buffer].
Proof.
  intros format fuel buffer Hnew Hview bb r.
  unfold sinkWriterThreadLoopByteBuffer. rewrite Hnew.
  unfold LocalByteBuffer_new, LocalByteBuffer_is_valid,
    LocalByteBuffer_delete. simpl bb_.
  apply Z.eqb_neq in Hview. rewrite Hview. reflexivity.
Qed.

Ltac not_among H :=
  apply split_In in H; simpl in H; exfalso; intuition discriminate.

(** Every write of a direct-memory loop asks for the bytes of the block;
    the rewind is the next call after a write that took them all; after
    any other write the loop returns, and what follows is the release of
    the view and of the block. *)
Lemma ByteBuffer_write_then_rewind :
  forall format fuel before view size mode result after,
    snd (sinkWriterThreadLoopByteBuffer w s format (sample_size format) fuel)
    = before ++ EvWriteByteBuffer view size mode result :: after ->
    (exists earlier buffer,
       before
       = earlier ++
         [EvRenderCallback (callback_func_ s) (NativeBlock buffer) format
            (wrap_s32 (world_getChannelCount w))
            (wrap_s32 (buffer_size_in_frames_ s)) (callback_args_ s)]) /\
    size = block_bytes w s format /\
    (to_size_t (world_lp64 w) result = size ->
     exists rest, after = EvRewind view :: rest) /\
    (to_size_t (world_lp64 w) result <> size ->
     fst (sinkWriterThreadLoopByteBuffer w s format (sample_size format) fuel)
     = Returned /\
     exists buffer, after = [EvDeleteLocalRef view; EvDeleteNative buffer]).
Proof.
  intros format fuel before view size mode result after H.
  destruct (world_new_native w) as [buffer | ] eqn:Enew.
  2: { unfold sinkWriterThreadLoopByteBuffer in H. rewrite Enew in H.
       simpl in H. not_among H. }
  destruct (Z.eq_dec (world_NewDirectByteBuffer w) 0) as [Enull | Eview].
  { unfold sinkWriterThreadLoopByteBuffer, LocalByteBuffer_new,
      LocalByteBuffer_is_valid, LocalByteBuffer_delete in H.
    rewrite Enew in H. simpl bb_ in H. rewrite Enull in H.
    simpl in H. not_among H. }
  rewrite (ByteBuffer_calls format fuel buffer Enew Eview) in H |- *.
  rewrite at_return_outcome. rewrite at_return_calls in H.
  cbv zeta in H |- *. simpl fst in H |- *. simpl snd in H.
  apply app_split_at in H. destruct H as [(a1 & H & ->) | (b2 & _ & H)].
  2: { destruct (fst (while_not_stop_request w _ fuel 0));
       destruct b2; simpl in H; try discriminate H;
       injection H as _ H; not_among H. }
  apply (app_split_at [_; _; _; _]) in H.
  destruct H as [(a2 & H & _) | (b2 & -> & H)].
  { not_among H. }
  apply while_calls_inv in H.
  destruct H as (j & b0 & b1 & a3 & a4 & -> & Hj & -> & Hbreak).
  apply body_ByteBuffer_write in Hj.
  destruct Hj as (-> & -> & -> & Hfull & Hshort). simpl size_ in *.
  split.
  { eexists (_ ++ b0), buffer. rewrite <- app_assoc. reflexivity. }
  split; [ reflexivity | ]. split.
  - intros Hres. destruct (Hfull Hres) as [-> _]. simpl. eauto.
  - intros Hres. destruct (Hshort Hres) as [-> Hbr].
    destruct (Hbreak Hbr) as [-> Hret]. rewrite Hret.
    split; [ reflexivity | ]. exists buffer. reflexivity.
Qed.

End ByteBufferLoop.

(** C3. In the two direct-memory loops, S16 and F32 alike, every write
    asks for the bytes of the block; when the number of bytes it reports
    equals that length, the very next call is the rewind of the view, so
    the view is rewound before any later render callback; when the number
    differs, the loop has returned and the only calls left are the release
    of the view and of the block: no rewind, no second write, no other
    render callback. *)
Theorem direct_memory_loops_rewind_after_full_write :
  forall w s fuel format run before view size mode result after,
    (format = kAudioSampleFormatType_S16 /\
     run = sinkWriterThreadLoopS16ByteBuffer w s fuel) \/
    (format = kAudioSampleFormatType_F32 /\
     run = sinkWriterThreadLoopFloatByteBuffer w s fuel) ->
    snd run = before ++ EvWriteByteBuffer view size mode result :: after ->
    size = block_bytes w s format /\
    (to_size_t (world_lp64 w) result = size ->
     exists rest, after = EvRewind view :: rest) /\
    (to_size_t (world_lp64 w) result <> size ->
     fst run = Returned /\
     exists buffer, after = [EvDeleteLocalRef view; EvDeleteNative buffer]).
Proof.
  intros w s fuel format run before view size mode result after
    [[-> ->] | [-> ->]] H.
  - exact (proj2 (ByteBuffer_write_then_rewind w s kAudioSampleFormatType_S16
                      fuel before view size mode result after H)).
  - exact (proj2 (ByteBuffer_write_then_rewind w s kAudioSampleFormatType_F32
                      fuel before view size mode result after H)).
Qed.

Lemma direct_memory_loops_rewind_after_full_write_witness :
  (exists rest,
     [EvRewind 6000;
      EvRenderCallback 4096 (NativeBlock 5000) kAudioSampleFormatType_S16
        2 256 8192;
      EvWriteByteBuffer 6000 1024 WRITE_BLOCKING 1000;
      EvDeleteLocalRef 6000; EvDeleteNative 5000]
     = EvRewind 6000 :: rest)
  /\ fst (sinkWriterThreadLoopS16ByteBuffer direct_world running_engine 3)
     = Returned.
Proof.
  assert (Hrun :
    (kAudioSampleFormatType_S16 = kAudioSampleFormatType_S16 /\
     sinkWriterThreadLoopS16ByteBuffer direct_world running_engine 3
     = sinkWriterThreadLoopS16ByteBuffer direct_world running_engine 3) \/
    (kAudioSampleFormatType_S16 = kAudioSampleFormatType_F32 /\
     sinkWriterThreadLoopS16ByteBuffer direct_world running_engine 3
     = sinkWriterThreadLoopFloatByteBuffer direct_world running_engine 3))
    by (left; split; reflexivity).
  split.
  - assert (Hfirst :
      snd (sinkWriterThreadLoopS16ByteBuffer direct_world running_engine 3)
      = [EvGetChannelCount; EvNewNative 2 512;
         EvNewDirectByteBuffer 5000 1024 6000; EvFindRewindMethod;
         EvRenderCallback 4096 (NativeBlock 5000) kAudioSampleFormatType_S16
           2 256 8192]
        ++ EvWriteByteBuffer 6000 1024 WRITE_BLOCKING 1024
        :: [EvRewind 6000;
            EvRenderCallback 4096 (NativeBlock 5000)
              kAudioSampleFormatType_S16 2 256 8192;
            EvWriteByteBuffer 6000 1024 WRITE_BLOCKING 1000;
            EvDeleteLocalRef 6000; EvDeleteNative 5000])
      by reflexivity.
    destruct (direct_memory_loops_rewind_after_full_write direct_world
                running_engine 3 kAudioSampleFormatType_S16 _ _ _ _ _ _ _
                Hrun Hfirst) as (_ & Hfull & _).
    apply Hfull. reflexivity.
  - assert (Hsecond :
      snd (sinkWriterThreadLoopS16ByteBuffer direct_world running_engine 3)
      = [EvGetChannelCount; EvNewNative 2 512;
         EvNewDirectByteBuffer 5000 1024 6000; EvFindRewindMethod;
         EvRenderCallback 4096 (NativeBlock 5000) kAudioSampleFormatType_S16
           2 256 8192;
         EvWriteByteBuffer 6000 1024 WRITE_BLOCKING 1024; EvRewind 6000;
         EvRenderCallback 4096 (NativeBlock 5000) kAudioSampleFormatType_S16
           2 256 8192]
        ++ EvWriteByteBuffer 6000 1024 WRITE_BLOCKING 1000
        :: [EvDeleteLocalRef 6000; EvDeleteNative 5000])
      by reflexivity.
    destruct (direct_memory_loops_rewind_after_full_write direct_world
                running_engine 3 kAudioSampleFormatType_S16 _ _ _ _ _ _ _
                Hrun Hsecond) as (_ & _ & Hshort).
    apply Hshort. discriminate.
Defined.

(** ** The worker: from play to stop *)

Section WorkerProcess.

Variable w : World.
Variable s : AudioTrackStream.

Lemma Forall_at_return : forall (P : Event -> Prop) r epilogue,
  Forall P (snd r) -> Forall P epilogue ->
  Forall P (snd (at_return r epilogue)).
Proof.
  intros P r epilogue Hr He. rewrite at_return_calls.
  apply Forall_app. split; [ exact Hr | ].
  destruct (fst r); [ exact He | constructor | constructor ].
Qed.

Ltac all_calls :=
  repeat first
    [ apply Forall_nil
    | apply Forall_cons; [ reflexivity | ]
    | apply Forall_app; split ].

Lemma body_ByteBuffer_break : forall format buffer bb channels frames k,
  snd (body_ByteBuffer w s format buffer bb channels frames k)
  = negb (to_size_t (world_lp64 w) (wrap_s32 (world_write w k)) =? size_ bb).
Proof.
  intros. unfold body_ByteBuffer, LocalByteBuffer_size.
  destruct (negb _); reflexivity.
Qed.

(** No loop pauses or stops the track. *)
Lemma selected_loop_no_pause_stop : forall fuel,
  Forall (fun e => is_pause_or_stop e = false) (snd (selected_loop w s fuel)).
Proof.
  intros fuel. unfold selected_loop.
  destruct (world_getAudioFormat w);
    destruct (world_supportsByteBufferMethods w); try constructor.
  - unfold sinkWriterThreadLoopS16ByteBuffer, sinkWriterThreadLoopByteBuffer.
    destruct (world_new_native w); [ | all_calls ].
    unfold LocalByteBuffer_new, LocalByteBuffer_is_valid,
      LocalByteBuffer_delete. simpl bb_.
    destruct (world_NewDirectByteBuffer w =? 0); simpl negb; cbv iota;
      [ all_calls | ].
    apply Forall_at_return; simpl snd; all_calls.
    apply while_Forall. intros k. unfold body_ByteBuffer.
    destruct (negb _); simpl; all_calls.
  - unfold sinkWriterThreadLoopS16.
    destruct (world_NewArray w =? 0); [ all_calls | ].
    apply Forall_at_return; simpl snd; all_calls.
    apply while_Forall. intros k. simpl. all_calls.
  - unfold sinkWriterThreadLoopFloatByteBuffer,
      sinkWriterThreadLoopByteBuffer.
    destruct (world_new_native w); [ | all_calls ].
    unfold LocalByteBuffer_new, LocalByteBuffer_is_valid,
      LocalByteBuffer_delete. simpl bb_.
    destruct (world_NewDirectByteBuffer w =? 0); simpl negb; cbv iota;
      [ all_calls | ].
    apply Forall_at_return; simpl snd; all_calls.
    apply while_Forall. intros k. unfold body_ByteBuffer.
    destruct (negb _); simpl; all_calls.
  - unfold sinkWriterThreadLoopFloat.
    destruct (world_NewArray w =? 0); [ all_calls | ].
    apply Forall_at_return; simpl snd; all_calls.
    apply while_Forall. intros k. simpl. all_calls.
Qed.

(** Every loop returns once the stop flag is seen raised or a write is
    short, unless [new] throws: [n + 1] units of fuel are enough for an
    exit at iteration [n]. *)
Lemma selected_loop_returns : forall n,
  world_new_native w <> None ->
  world_stop_request w n = true \/ short_write w s n = true ->
  fst (selected_loop w s (S n)) = Returned.
Proof.
  intros n Hnew Hexit. unfold selected_loop, short_write in *.
  destruct (world_getAudioFormat w);
    destruct (world_supportsByteBufferMethods w); try reflexivity.
  - unfold sinkWriterThreadLoopS16ByteBuffer, sinkWriterThreadLoopByteBuffer.
    destruct (world_new_native w); [ | congruence ].
    unfold LocalByteBuffer_new, LocalByteBuffer_is_valid. simpl bb_.
    destruct (world_NewDirectByteBuffer w =? 0); simpl negb; cbv iota;
      [ reflexivity | ].
    rewrite at_return_outcome. cbn [fst].
    apply (while_returns w _ n (S n) 0); [ | lia ].
    destruct Hexit as [Hstop | Hshort]; [ now left | right ].
    rewrite body_ByteBuffer_break. exact Hshort.
  - unfold sinkWriterThreadLoopS16.
    destruct (world_NewArray w =? 0); [ reflexivity | ].
    rewrite at_return_outcome. cbn [fst].
    apply (while_returns w _ n (S n) 0); [ | lia ].
    destruct Hexit as [Hstop | Hshort]; [ now left | right; exact Hshort ].
  - unfold sinkWriterThreadLoopFloatByteBuffer,
      sinkWriterThreadLoopByteBuffer.
    destruct (world_new_native w); [ | congruence ].
    unfold LocalByteBuffer_new, LocalByteBuffer_is_valid. simpl bb_.
    destruct (world_NewDirectByteBuffer w =? 0); simpl negb; cbv iota;
      [ reflexivity | ].
    rewrite at_return_outcome. cbn [fst].
    apply (while_returns w _ n (S n) 0); [ | lia ].
    destruct Hexit as [Hstop | Hshort]; [ now left | right ].
    rewrite body_ByteBuffer_break. exact Hshort.
  - unfold sinkWriterThreadLoopFloat.
    destruct (world_NewArray w =? 0); [ reflexivity | ].
    rewrite at_return_outcome. cbn [fst].
    apply (while_returns w _ n (S n) 0); [ | lia ].
    destruct Hexit as [Hstop | Hshort]; [ now left | right; exact Hshort ].
Qed.

End WorkerProcess.

(** C2. Whenever [sinkWriterThreadProcess] returns: if [play] succeeded,
    its calls are the three queries, those of the selected loop, among
    which there is neither [pause] nor [stop], and then [pause] followed
    by [stop]; if [play] failed, there is neither [pause] nor [stop].  And
    it does return: with [n + 1] units of fuel when the stop flag is seen
    raised at iteration [n] or the write of iteration [n] is short, and
    with any fuel when the array, or the view of a sink with byte-buffer
    methods, cannot be allocated. *)
Theorem sinkWriterThreadProcess_pause_then_stop :
  forall w s,
    (forall fuel calls,
       sinkWriterThreadProcess w s fuel = (Returned, calls) ->
       (world_play_success w = true ->
        exists loop_calls,
          calls
          = [EvGetAudioFormat; EvPlay; EvSupportsByteBufferMethods]
            ++ loop_calls ++ [EvPause; EvStop] /\
          Forall (fun e => is_pause_or_stop e = false) loop_calls) /\
       (world_play_success w = false ->
        Forall (fun e => is_pause_or_stop e = false) calls))
    /\
    (forall n,
       track_ s <> None ->
       world_new_native w <> None ->
       world_stop_request w n = true \/ short_write w s n = true ->
       fst (sinkWriterThreadProcess w s (S n)) = Returned)
    /\
    (forall fuel,
       track_ s <> None ->
       world_new_native w <> None ->
       (if world_supportsByteBufferMethods w
        then world_NewDirectByteBuffer w = 0
        else world_NewArray w = 0) ->
       fst (sinkWriterThreadProcess w s fuel) = Returned).
Proof.
  intros w s. split; [ | split ].
  - intros fuel calls. unfold sinkWriterThreadProcess.
    destruct (track_ s); [ | discriminate ].
    destruct (world_play_success w).
    + intros H. split; [ intros _ | discriminate ].
      pose proof (f_equal fst H) as Hfst.
      pose proof (f_equal snd H) as Hsnd.
      rewrite at_return_outcome in Hfst.
      rewrite at_return_calls in Hsnd. cbn [fst snd] in Hfst, Hsnd.
      rewrite Hfst in Hsnd. exists (snd (selected_loop w s fuel)).
      split.
      * rewrite <- Hsnd. now rewrite <- app_assoc.
      * apply selected_loop_no_pause_stop.
    + intros H. split; [ discriminate | intros _ ].
      injection H as <-. repeat constructor.
  - intros n Htrack Hnew Hexit. unfold sinkWriterThreadProcess.
    destruct (track_ s); [ | congruence ].
    destruct (world_play_success w); [ | reflexivity ].
    rewrite at_return_outcome. cbn [fst].
    now apply selected_loop_returns.
  - intros fuel Htrack Hnew Hnull. unfold sinkWriterThreadProcess.
    destruct (track_ s); [ | congruence ].
    destruct (world_play_success w); [ | reflexivity ].
    rewrite at_return_outcome. cbn [fst].
    unfold selected_loop, sinkWriterThreadLoopS16ByteBuffer,
      sinkWriterThreadLoopFloatByteBuffer, sinkWriterThreadLoopByteBuffer,
      sinkWriterThreadLoopS16, sinkWriterThreadLoopFloat,
      LocalByteBuffer_new, LocalByteBuffer_is_valid.
    simpl bb_.
    destruct (world_new_native w); [ | congruence ].
    destruct (world_getAudioFormat w);
      destruct (world_supportsByteBufferMethods w);
      try rewrite Hnull; reflexivity.
Qed.

Lemma sinkWriterThreadProcess_pause_then_stop_witness :
  (exists loop_calls,
     snd (sinkWriterThreadProcess short_write_world running_engine 5)
     = [EvGetAudioFormat; EvPlay; EvSupportsByteBufferMethods]
       ++ loop_calls ++ [EvPause; EvStop] /\
     Forall (fun e => is_pause_or_stop e = false) loop_calls)
  /\ fst (sinkWriterThreadProcess short_write_world running_engine 5)
     = Returned.
Proof.
  destruct (sinkWriterThreadProcess_pause_then_stop short_write_world
              running_engine) as (Hcalls & Hreturns & _).
  assert (Htrack : track_ running_engine <> None) by discriminate.
  assert (Hnew : world_new_native short_write_world <> None) by discriminate.
  assert (Hexit : world_stop_request short_write_world 4 = true \/
                  short_write short_write_world running_engine 4 = true)
    by (right; reflexivity).
  pose proof (Hreturns 4%nat Htrack Hnew Hexit) as Hfst.
  split; [ | exact Hfst ].
  destruct (Hcalls 5%nat
              (snd (sinkWriterThreadProcess short_write_world running_engine
                      5))) as [Hplay _].
  - rewrite <- Hfst. symmetry. apply surjective_pairing.
  - apply Hplay. reflexivity.
Defined.

(** ** The managed-array loops *)

Section ArrayLoops.

Variable w : World.
Variable s : AudioTrackStream.

(** In [sinkWriterThreadLoopS16] every write is of the whole block and
    comes right after the render callback of its iteration, called on the
    elements of the array with S16, the channel count of the track, the
    block size in frames and the stored argument. *)
Lemma sinkWriterThreadLoopS16_renders_before_write :
  forall fuel before array offset count mode result after,
    snd (sinkWriterThreadLoopS16 w s fuel)
    = before ++ EvWriteArray array offset count mode result :: after ->
    count = block_elements w s /\
    exists earlier,
      before
      = earlier ++
        [EvArrayAcquire array;
         EvRenderCallback (callback_func_ s) (ArrayElements array)
           kAudioSampleFormatType_S16 (wrap_s32 (world_getChannelCount w))
           (wrap_s32 (buffer_size_in_frames_ s)) (callback_args_ s);
         EvArrayRelease array].
Proof.
  intros fuel before array offset count mode result after H.
  unfold sinkWriterThreadLoopS16 in H.
  destruct (world_NewArray w =? 0).
  { simpl in H. apply split_In in H. simpl in H.
    exfalso. intuition discriminate. }
  rewrite at_return_calls in H. cbn [fst snd] in H.
  apply app_split_at in H. destruct H as [(a1 & H & _) | (b2 & _ & H)].
  2: { destruct (fst (while_not_stop_request w _ fuel 0));
       destruct b2; simpl in H; try discriminate H;
       injection H as _ H; destruct b2; discriminate H. }
  apply (app_split_at [_; _]) in H.
  destruct H as [(a2 & H & _) | (b2 & -> & H)].
  { apply split_In in H. simpl in H. exfalso. intuition discriminate. }
  apply while_calls_inv in H.
  destruct H as (j & b0 & b1 & a3 & a4 & -> & Hj & _ & _).
  unfold body_S16 in Hj. cbn [fst] in Hj.
  destruct b1 as [ | x1 [ | x2 [ | x3 [ | x4 b1]]]]; simpl in Hj;
    try discriminate Hj.
  - injection Hj as <- <- <- <- <- <- _.
    split; [ reflexivity | ].
    exists ([EvGetChannelCount;
             EvNewShortArray
               (wrap_s32
                  (wrap_s32 (world_getChannelCount w) *
                   wrap_s32 (buffer_size_in_frames_ s)))
               (world_NewArray w)] ++ b0).
    now rewrite <- app_assoc.
  - injection Hj as _ _ _ _ Hj. destruct b1; discriminate Hj.
Qed.

(** [sinkWriterThreadLoopFloat] never calls the render callback, whatever
    the world and the fuel. *)
Lemma sinkWriterThreadLoopFloat_never_renders : forall fuel,
  Forall (fun e => is_render e = false)
    (snd (sinkWriterThreadLoopFloat w s fuel)).
Proof.
  intros fuel. unfold sinkWriterThreadLoopFloat.
  destruct (world_NewArray w =? 0).
  - repeat constructor.
  - apply Forall_at_return; cbn [snd]; [ | repeat constructor ].
    repeat (apply Forall_cons; [ reflexivity | ]).
    apply while_Forall. intros k. repeat constructor.
Qed.

End ArrayLoops.

(** C1. On a sink that plays float samples and has no byte-buffer methods,
    with a stop request arriving during the second iteration, the worker
    writes the block twice and calls the render callback not once: the
    block it writes holds the sine tone computed before the loop. *)
Theorem float_array_loop_writes_without_render :
  sinkWriterThreadProcess float_array_world running_engine 3
  = (Returned,
     [EvGetAudioFormat; EvPlay; EvSupportsByteBufferMethods;
      EvGetChannelCount; EvNewFloatArray 512 3000;
      EvArrayAcquire 3000; EvFillSineTone 3000 256; EvArrayRelease 3000;
      EvWriteArray 3000 0 512 WRITE_BLOCKING 512;
      EvWriteArray 3000 0 512 WRITE_BLOCKING 512;
      EvDeleteLocalRef 3000; EvPause; EvStop])
  /\ length
       (filter is_write
          (snd (sinkWriterThreadProcess float_array_world running_engine 3)))
     = 2%nat
  /\ filter is_render
       (snd (sinkWriterThreadProcess float_array_world running_engine 3))
     = [].
Proof.
  repeat split.
Qed.

(** ** Further properties of the control methods *)

Ltac table :=
  unfold result_of, state_of, calls_of; simpl;
  repeat split; intros; simpl in *;
  try discriminate; try congruence; try tauto;
  intuition (try discriminate; try congruence).

(** [init] is all or nothing.  It returns
    [OSLMP_RESULT_ILLEGAL_ARGUMENT] exactly for a format without encoding
    or a channel count other than 2, [OSLMP_RESULT_SUCCESS] exactly when,
    besides, the VM is found, the AudioTrack allocated and created, and
    never [OSLMP_RESULT_ILLEGAL_STATE]; whenever it does not succeed the
    object is as it was, a stored track included: the only object a failed
    [init] deletes is the one it allocated itself, and when the VM is not
    found no AudioTrack is allocated at all. *)
Theorem init_result_table :
  forall h env stream_type format rate channels frames blocks s,
    let r := init h env stream_type format rate channels frames blocks s in
    (result_of r = OSLMP_RESULT_ILLEGAL_ARGUMENT
     <-> encoding_of format = None \/ channels <> 2) /\
    (result_of r = OSLMP_RESULT_SUCCESS
     <-> encoding_of format <> None /\ channels = 2 /\
         host_GetJavaVM h <> None /\ host_new_AudioTrack h <> None /\
         host_create h = true) /\
    result_of r <> OSLMP_RESULT_ILLEGAL_STATE /\
    (result_of r <> OSLMP_RESULT_SUCCESS -> state_of r = s) /\
    (host_GetJavaVM h = None -> ~ In EvNewAudioTrack (calls_of r)) /\
    (forall a,
       result_of r <> OSLMP_RESULT_SUCCESS ->
       In (EvDeleteAudioTrack a) (calls_of r) ->
       host_new_AudioTrack h = Some a).
Proof.
  intros h env stream_type format rate channels frames blocks s r.
  subst r. unfold init.
  destruct (encoding_of format) as [encoding | ]; [ | table ].
  destruct (Z.eqb_spec channels 2) as [-> | Hch]; simpl negb; cbv iota;
    [ | table ].
  destruct (host_GetJavaVM h) as [vm | ]; [ | table ].
  destruct (host_new_AudioTrack h) as [address | ]; [ | table ].
  destruct (host_create h); simpl negb; cbv iota; table.
Qed.

Lemma init_result_table_witness :
  state_of
    (init (mkHost (Some 1000) (Some 2400) false (0, 7)) 500 3
       kAudioSampleFormatType_F32 48000 2 128 8 running_engine)
  = running_engine
  /\ host_new_AudioTrack (mkHost (Some 1000) (Some 2400) false (0, 7))
     = Some 2400.
Proof.
  destruct (init_result_table (mkHost (Some 1000) (Some 2400) false (0, 7))
              500 3 kAudioSampleFormatType_F32 48000 2 128 8 running_engine)
    as (_ & _ & _ & Hsame & _ & Hdel).
  split.
  - apply Hsame. discriminate.
  - apply Hdel; [ discriminate | ].
    right. right. right. left. reflexivity.
Defined.

(** [start] calls [pthread_create] exactly when the callback is not null
    and a track is stored, and then once.  It returns
    [OSLMP_RESULT_ILLEGAL_ARGUMENT] exactly for a null callback and
    [OSLMP_RESULT_SUCCESS] exactly when [pthread_create] was called and
    returned 0.  The object the thread is created on holds the callback
    and the argument of this call and is otherwise as [start] found it; a
    successful call returns it with the new handle, a call whose
    [pthread_create] fails with callback and argument null again and the
    old handle; a rejected call leaves the object as it was; no call
    changes the track, the VM, the environment, the block size, the block
    count or the stop flag. *)
Theorem start_result_table :
  forall h callback args s,
    let r := start h callback args s in
    (result_of r = OSLMP_RESULT_ILLEGAL_ARGUMENT <-> callback = nullptr) /\
    (result_of r = OSLMP_RESULT_SUCCESS
     <-> callback <> nullptr /\ track_ s <> None /\
         fst (host_pthread_create h) = 0) /\
    (callback <> nullptr /\ track_ s <> None ->
     calls_of r = [EvPthreadCreate (with_callback s callback args)]) /\
    (callback <> nullptr /\ track_ s <> None ->
     exists this,
       calls_of r = [EvPthreadCreate this] /\
       callback_func_ this = callback /\
       callback_args_ this = args /\
       track_ this = track_ s /\
       pt_handle_ this = pt_handle_ s /\
       stop_request_ this = stop_request_ s /\
       buffer_size_in_frames_ this = buffer_size_in_frames_ s) /\
    (callback = nullptr \/ track_ s = None ->
     calls_of r = [] /\ state_of r = s) /\
    (result_of r = OSLMP_RESULT_SUCCESS ->
     pt_handle_ (state_of r) = snd (host_pthread_create h) /\
     callback_func_ (state_of r) = callback /\
     callback_args_ (state_of r) = args) /\
    (result_of r = OSLMP_RESULT_INTERNAL_ERROR ->
     pt_handle_ (state_of r) = pt_handle_ s /\
     callback_func_ (state_of r) = nullptr /\
     callback_args_ (state_of r) = nullptr) /\
    track_ (state_of r) = track_ s /\
    vm_ (state_of r) = vm_ s /\
    env_ (state_of r) = env_ s /\
    buffer_size_in_frames_ (state_of r) = buffer_size_in_frames_ s /\
    buffer_block_count_ (state_of r) = buffer_block_count_ s /\
    stop_request_ (state_of r) = stop_request_ s.
Proof.
  intros h callback args s r. subst r. unfold start.
  destruct (Z.eqb_spec callback nullptr) as [-> | Hcb]; [ table | ].
  destruct (track_ s) as [t | ] eqn:Et; [ | table ].
  destruct (host_pthread_create h) as [rc handle].
  destruct (Z.eqb_spec rc 0) as [-> | Hrc]; simpl negb; cbv iota;
    (split; [ table | ]); (split; [ table | ]); (split; [ table | ]);
    (split;
     [ intros _; exists (with_callback s callback args);
       unfold calls_of; simpl; rewrite ?Et; repeat split
     | table ]).
Qed.

Lemma start_result_table_witness :
  calls_of (start good_host 4096 8192 initialized_engine)
  = [EvPthreadCreate (with_callback initialized_engine 4096 8192)]
  /\ (exists this,
        calls_of (start good_host 4096 8192 initialized_engine)
        = [EvPthreadCreate this] /\
        callback_func_ this = 4096 /\ callback_args_ this = 8192)
  /\ calls_of (start good_host 4096 8192 constructor) = []
  /\ pt_handle_ (state_of (start good_host 4096 8192 initialized_engine)) = 7.
Proof.
  destruct (start_result_table good_host 4096 8192 initialized_engine)
    as (_ & _ & Hcalls & Hthis & _ & Hhandle & _).
  destruct (start_result_table good_host 4096 8192 constructor)
    as (_ & _ & _ & _ & Hnone & _).
  assert (Hpass : 4096 <> nullptr /\ track_ initialized_engine <> None)
    by (split; discriminate).
  split; [ exact (Hcalls Hpass) | ].
  split.
  - destruct (Hthis Hpass) as (this & Hc & Hf & Ha & _).
    exists this. repeat split; assumption.
  - split; [ apply Hnone; right; reflexivity | ].
    apply Hhandle. reflexivity.
Defined.

(** [stop] undoes [start]: on an object between runs that stores a track,
    a successful [start] (with a handle other than 0) makes the object
    Running, and the [stop] that follows joins the thread [start] created,
    while the stop flag is up and the callback and argument of [start] are
    still stored, and gives back the very object [start] was called on,
    again between runs and Initialized. *)
Theorem start_then_stop_round_trip :
  forall h callback args handle s,
    idle s ->
    track_ s <> None ->
    callback <> nullptr ->
    host_pthread_create h = (0, handle) ->
    handle <> 0 ->
    let started := state_of (start h callback args s) in
    result_of (start h callback args s) = OSLMP_RESULT_SUCCESS /\
    lifecycle_of started = Running /\
    result_of (stop started) = OSLMP_RESULT_SUCCESS /\
    calls_of (stop started)
    = [EvPthreadJoin handle (with_stop_request started true)] /\
    (exists this,
       calls_of (stop started) = [EvPthreadJoin handle this] /\
       stop_request_ this = true /\
       pt_handle_ this = handle /\
       callback_func_ this = callback /\
       callback_args_ this = args /\
       track_ this = track_ s) /\
    state_of (stop started) = s /\
    lifecycle_of (state_of (stop started)) = Initialized.
Proof.
  intros h callback args handle s (Hpt & Hfunc & Hargs & Hflag) Htrack Hcb
    Hcreate Hhandle started.
  subst started. unfold start. rewrite Hcreate.
  apply Z.eqb_neq in Hcb. rewrite Hcb.
  destruct (track_ s) as [t | ] eqn:Et; [ | congruence ].
  simpl negb. cbv iota. unfold stop, result_of, state_of, calls_of.
  cbn [fst snd]. simpl pt_handle_.
  apply Z.eqb_neq in Hhandle. rewrite Hhandle.
  unfold lifecycle_of. cbn [fst snd]. simpl. rewrite Et, Hhandle.
  split; [ reflexivity | ]. split; [ reflexivity | ].
  split; [ reflexivity | ]. split; [ reflexivity | ].
  split.
  { eexists. split; [ reflexivity | ]. simpl. rewrite Et. repeat split. }
  split; [ | reflexivity ].
  destruct s as [vm env track pt frames blocks func cargs flag].
  simpl in *. subst. reflexivity.
Qed.

Lemma start_then_stop_round_trip_witness :
  state_of (stop (state_of (start good_host 4096 8192 initialized_engine)))
  = initialized_engine.
Proof.
  assert (Hidle : idle initialized_engine) by (repeat split).
  assert (Htrack : track_ initialized_engine <> None) by discriminate.
  assert (Hcb : 4096 <> nullptr) by discriminate.
  assert (Hhandle : 7 <> 0) by discriminate.
  destruct (start_then_stop_round_trip good_host 4096 8192 7
              initialized_engine Hidle Htrack Hcb eq_refl Hhandle)
    as (_ & _ & _ & _ & _ & Hsame & _).
  exact Hsame.
Defined.

Lemma init_state_cases :
  forall h env stream_type format rate channels frames blocks s,
    state_of (init h env stream_type format rate channels frames blocks s) = s
    \/ exists vm address encoding,
         encoding_of format = Some encoding /\ channels = 2 /\
         state_of (init h env stream_type format rate channels frames blocks s)
         = with_track s vm env
             (mkAudioTrack address stream_type rate channels encoding
                (create_buffer_size frames blocks) MODE_STREAM 0)
             frames blocks.
Proof.
  intros. unfold init.
  destruct (encoding_of format) as [encoding | ]; [ | now left ].
  destruct (Z.eqb_spec channels 2) as [-> | Hch]; simpl negb; cbv iota;
    [ | now left ].
  destruct (host_GetJavaVM h) as [vm | ]; [ | now left ].
  destruct (host_new_AudioTrack h) as [address | ]; [ | now left ].
  destruct (host_create h); simpl negb; cbv iota; [ | now left ].
  right. exists vm, address, encoding. repeat split.
Qed.

Lemma start_state_cases : forall h callback args s,
  state_of (start h callback args s) = s
  \/ track_ s <> None /\
     (state_of (start h callback args s)
      = with_callback (with_callback s callback args) nullptr nullptr
      \/ state_of (start h callback args s)
         = with_pt_handle (with_callback s callback args)
             (snd (host_pthread_create h))).
Proof.
  intros. unfold start.
  destruct (callback =? nullptr); [ now left | ].
  destruct (track_ s); [ | now left ].
  destruct (host_pthread_create h) as [rc handle].
  right. split; [ discriminate | ].
  destruct (negb (rc =? 0)); [ now left | now right ].
Qed.

Lemma encoding_of_supported : forall format encoding,
  encoding_of format = Some encoding ->
  encoding = ENCODING_PCM_16BIT \/ encoding = ENCODING_PCM_FLOAT.
Proof.
  intros [ | | raw] encoding H; simpl in H; try discriminate;
    injection H as <-; auto.
Qed.

(** On every object that one control thread reaches from a fresh one by
    [init], [start] and [stop], whatever the platform answers: the stop
    flag is down; a thread handle is stored only together with a track;
    until an [init] has succeeded the object is exactly as constructed;
    and a stored track is a stereo track in streaming mode with the 16-bit
    or the float encoding, created for the block size and block count the
    object stores. *)
Theorem reachable_invariants :
  forall s,
    reachable s ->
    stop_request_ s = false /\
    (pt_handle_ s <> 0 -> track_ s <> None) /\
    (track_ s = None -> s = constructor) /\
    (forall t,
       track_ s = Some t ->
       at_num_channels t = 2 /\
       (at_encoding t = ENCODING_PCM_16BIT \/
        at_encoding t = ENCODING_PCM_FLOAT) /\
       at_mode t = MODE_STREAM /\
       at_session_id t = 0 /\
       at_buffer_size t
       = create_buffer_size (buffer_size_in_frames_ s)
           (buffer_block_count_ s)).
Proof.
  intros s Hs. split; [ now apply reachable_stop_request | ].
  induction Hs as [ | h env stream_type format rate channels frames blocks
                      s Hs IH | h callback args s Hs IH | s Hs IH ].
  - split; [ | split ].
    + intros H. now elim H.
    + reflexivity.
    + discriminate.
  - destruct IH as (Hpt & Hfresh & Htrack).
    destruct (init_state_cases h env stream_type format rate channels frames
                blocks s) as [-> | (vm & address & encoding & Henc & -> & ->)].
    + auto.
    + simpl. split; [ | split ]; try discriminate.
      intros t H. injection H as <-. simpl.
      pose proof (encoding_of_supported format encoding Henc). auto.
  - destruct IH as (Hpt & Hfresh & Htrack).
    destruct (start_state_cases h callback args s)
      as [-> | (Hsome & [-> | ->])]; simpl; auto;
      (split; [ | split ]; auto; intros H; contradiction).
  - destruct IH as (Hpt & Hfresh & Htrack). unfold stop.
    destruct (Z.eqb_spec (pt_handle_ s) 0) as [Hzero | Hrun];
      unfold state_of; simpl; auto.
    split; [ | split ].
    + intros H. exfalso. apply H. reflexivity.
    + intros H. elim (Hpt Hrun). exact H.
    + exact Htrack.
Qed.

Lemma reachable_invariants_witness :
  stop_request_ running_engine = false
  /\ (pt_handle_ running_engine <> 0 -> track_ running_engine <> None).
Proof.
  assert (Hreach : reachable running_engine).
  { unfold running_engine, initialized_engine.
    apply reachable_start, reachable_init, reachable_constructor. }
  destruct (reachable_invariants running_engine Hreach)
    as (Hflag & Hpt & _).
  split; [ exact Hflag | exact Hpt ].
Defined.

(** The destructor forces the stop before it lets go of the track: with a
    thread handle stored, its first call is the join of that thread, made
    while the stop flag of the object is up (and it stays up), and it
    joins only once; a stored track is released
    and then deleted, as its last two calls and only when the environment
    is stored too; without a track nothing is released.  The object is
    left without track and VM.  After a [stop] the destructor does not
    join again. *)
Theorem destructor_joins_then_releases :
  forall s,
    track_ (fst (destructor s)) = None /\
    vm_ (fst (destructor s)) = nullptr /\
    (pt_handle_ s <> 0 ->
     exists rest,
       snd (destructor s)
       = EvPthreadJoin (pt_handle_ s) (with_stop_request s true) :: rest /\
       count_calls is_join rest = 0%nat) /\
    (pt_handle_ s <> 0 ->
     stop_request_ (fst (destructor s)) = true /\
     exists this rest,
       snd (destructor s) = EvPthreadJoin (pt_handle_ s) this :: rest /\
       stop_request_ this = true /\
       pt_handle_ this = pt_handle_ s /\
       track_ this = track_ s) /\
    (pt_handle_ s = 0 ->
     stop_request_ (fst (destructor s)) = stop_request_ s) /\
    (pt_handle_ s = 0 -> count_calls is_join (snd (destructor s)) = 0%nat) /\
    (forall t,
       track_ s = Some t ->
       env_ s <> nullptr ->
       exists joined,
         snd (destructor s)
         = joined ++ [EvTrackRelease (at_address t);
                      EvDeleteAudioTrack (at_address t)] /\
         count_calls is_release joined = 0%nat) /\
    (track_ s = None \/ env_ s = nullptr ->
     count_calls is_release (snd (destructor s)) = 0%nat) /\
    count_calls is_join (snd (destructor (state_of (stop s)))) = 0%nat.
Proof.
  intros s.
  assert (Hzero : forall s0,
    pt_handle_ s0 = 0 -> count_calls is_join (snd (destructor s0)) = 0%nat).
  { intros s0 H0. unfold destructor. rewrite H0. simpl.
    destruct (track_ s0); [ destruct (env_ s0 =? nullptr) | ]; reflexivity. }
  split; [ | split; [ | split; [ | split; [ | split; [ | split;
    [ apply Hzero | split; [ | split ]]]]]]].
  - unfold destructor.
    destruct (pt_handle_ s =? 0); simpl;
      (destruct (track_ s); [ destruct (env_ s =? nullptr) | ]); reflexivity.
  - unfold destructor.
    destruct (pt_handle_ s =? 0); simpl;
      (destruct (track_ s); [ destruct (env_ s =? nullptr) | ]); reflexivity.
  - intros Hpt. apply Z.eqb_neq in Hpt. unfold destructor. rewrite Hpt. simpl.
    destruct (track_ s); [ destruct (env_ s =? nullptr) | ]; simpl;
      eexists; split; reflexivity.
  - intros Hpt. apply Z.eqb_neq in Hpt. unfold destructor. rewrite Hpt. simpl.
    destruct (track_ s) eqn:Et; [ destruct (env_ s =? nullptr) | ]; simpl;
      (split; [ reflexivity | ]); eexists; eexists;
      (split; [ reflexivity | ]); simpl; rewrite Et; repeat split.
  - intros Hpt. unfold destructor. rewrite Hpt. simpl.
    destruct (track_ s); [ destruct (env_ s =? nullptr) | ]; reflexivity.
  - intros t Ht Henv. apply Z.eqb_neq in Henv. unfold destructor.
    destruct (pt_handle_ s =? 0); simpl; rewrite Ht, Henv.
    + exists []. split; reflexivity.
    + exists [EvPthreadJoin (pt_handle_ s) (with_stop_request s true)].
      split; reflexivity.
  - intros Hnone. unfold destructor.
    destruct (pt_handle_ s =? 0); simpl;
      (destruct Hnone as [-> | Henv];
       [ reflexivity
       | destruct (track_ s); [ rewrite Henv | ]; reflexivity ]).
  - apply Hzero. unfold stop.
    destruct (Z.eqb_spec (pt_handle_ s) 0) as [H0 | H0];
      [ exact H0 | reflexivity ].
Qed.

Lemma destructor_joins_then_releases_witness :
  (exists rest,
     snd (destructor running_engine)
     = EvPthreadJoin 7 (with_stop_request running_engine true) :: rest /\
     count_calls is_join rest = 0%nat)
  /\ (exists joined,
        snd (destructor running_engine)
        = joined ++ [EvTrackRelease 2000; EvDeleteAudioTrack 2000] /\
        count_calls is_release joined = 0%nat).
Proof.
  destruct (destructor_joins_then_releases running_engine)
    as (_ & _ & Hjoin & _ & _ & _ & Hrelease & _).
  assert (Hpt : pt_handle_ running_engine <> 0) by discriminate.
  assert (Henv : env_ running_engine <> nullptr) by discriminate.
  split; [ exact (Hjoin Hpt) | ].
  exact (Hrelease _ eq_refl Henv).
Defined.

(** ** Further properties of the worker: counting calls *)

Lemma count_calls_app : forall p l1 l2,
  count_calls p (l1 ++ l2) = (count_calls p l1 + count_calls p l2)%nat.
Proof.
  intros p l1 l2. unfold count_calls. now rewrite filter_app, length_app.
Qed.

Lemma count_calls_none : forall p l,
  Forall (fun e => p e = false) l -> count_calls p l = 0%nat.
Proof.
  intros p l H. unfold count_calls.
  induction H as [ | e l He _ IH]; simpl; [ reflexivity | ].
  now rewrite He.
Qed.

Section Counting.

Variable w : World.
Variable body : nat -> list Event * bool.
Variables p q : Event -> bool.

(** Two classes of calls that are as frequent in every iteration are as
    frequent in the loop. *)
Lemma while_count_eq :
  (forall k, count_calls p (fst (body k)) = count_calls q (fst (body k))) ->
  forall fuel k,
    count_calls p (snd (while_not_stop_request w body fuel k))
    = count_calls q (snd (while_not_stop_request w body fuel k)).
Proof.
  intros Hbody. induction fuel as [ | fuel IH]; intros k; [ reflexivity | ].
  rewrite while_step.
  destruct (world_stop_request w k); [ reflexivity | ].
  destruct (snd (body k)); cbn [snd]; [ apply Hbody | ].
  now rewrite !count_calls_app, Hbody, IH.
Qed.

(** A class [p] that every iteration has once more than [q] when it
    breaks, and as often when it does not, exceeds [q] by one at most. *)
Lemma while_count_between :
  (forall k, snd (body k) = false ->
             count_calls p (fst (body k)) = count_calls q (fst (body k))) ->
  (forall k, snd (body k) = true ->
             count_calls p (fst (body k))
             = S (count_calls q (fst (body k)))) ->
  forall fuel k,
    (count_calls q (snd (while_not_stop_request w body fuel k))
     <= count_calls p (snd (while_not_stop_request w body fuel k))
     <= S (count_calls q (snd (while_not_stop_request w body fuel k))))%nat.
Proof.
  intros Hgo Hbreak. induction fuel as [ | fuel IH]; intros k.
  - simpl. unfold count_calls. simpl. lia.
  - rewrite while_step.
    destruct (world_stop_request w k).
    + unfold count_calls. simpl. lia.
    + destruct (snd (body k)) eqn:E; cbn [snd].
      * rewrite (Hbreak k E). lia.
      * rewrite !count_calls_app, (Hgo k E). specialize (IH (S k)). lia.
Qed.


End Counting.

Section SelectedLoop.

Variable w : World.
Variable s : AudioTrackStream.
Variable p : Event -> bool.

Hypothesis p_iteration : forall e, p e = true -> is_iteration_call e = true.

Lemma count_overhead : forall l,
  Forall (fun e => is_iteration_call e = false) l -> count_calls p l = 0%nat.
Proof.
  intros l H. apply count_calls_none.
  apply Forall_impl with (2 := H). intros e He.
  destruct (p e) eqn:Ep; [ | reflexivity ].
  apply p_iteration in Ep. congruence.
Qed.

Ltac overhead :=
  rewrite ?count_calls_app;
  repeat (rewrite count_overhead by (repeat constructor));
  rewrite ?Nat.add_0_r; cbn [Nat.add].

Lemma at_return_count : forall r epilogue,
  Forall (fun e => is_iteration_call e = false) epilogue ->
  count_calls p (snd (at_return r epilogue)) = count_calls p (snd r).
Proof.
  intros r epilogue H. rewrite at_return_calls, count_calls_app.
  destruct (fst r);
    [ rewrite (count_overhead epilogue H)
    | rewrite (count_overhead [] (Forall_nil _))
    | rewrite (count_overhead [] (Forall_nil _)) ];
    apply Nat.add_0_r.
Qed.

(** The counted calls of the selected loop are those of its iterations. *)
Lemma selected_loop_count : forall fuel,
  count_calls p (snd (selected_loop w s fuel))
  = if loop_entered w
    then count_calls p
           (snd (while_not_stop_request w (selected_body w s) fuel 0))
    else 0%nat.
Proof.
  intros fuel. unfold selected_loop, loop_entered, selected_body.
  destruct (world_getAudioFormat w);
    destruct (world_supportsByteBufferMethods w); try reflexivity.
  - unfold sinkWriterThreadLoopS16ByteBuffer, sinkWriterThreadLoopByteBuffer,
      run_view, run_block.
    destruct (world_new_native w) as [block | ];
      [ | apply count_overhead; repeat constructor ].
    unfold LocalByteBuffer_new, LocalByteBuffer_is_valid,
      LocalByteBuffer_delete. simpl bb_.
    destruct (world_NewDirectByteBuffer w =? 0); simpl negb; cbv iota;
      [ apply count_overhead; repeat constructor | ].
    rewrite at_return_count by (repeat constructor). cbn [snd].
    now overhead.
  - unfold sinkWriterThreadLoopS16.
    destruct (world_NewArray w =? 0); simpl negb; cbv iota;
      [ apply count_overhead; repeat constructor | ].
    rewrite at_return_count by (repeat constructor). cbn [snd].
    now overhead.
  - unfold sinkWriterThreadLoopFloatByteBuffer,
      sinkWriterThreadLoopByteBuffer, run_view, run_block.
    destruct (world_new_native w) as [block | ];
      [ | apply count_overhead; repeat constructor ].
    unfold LocalByteBuffer_new, LocalByteBuffer_is_valid,
      LocalByteBuffer_delete. simpl bb_.
    destruct (world_NewDirectByteBuffer w =? 0); simpl negb; cbv iota;
      [ apply count_overhead; repeat constructor | ].
    rewrite at_return_count by (repeat constructor). cbn [snd].
    now overhead.
  - unfold sinkWriterThreadLoopFloat.
    destruct (world_NewArray w =? 0); simpl negb; cbv iota;
      [ apply count_overhead; repeat constructor | ].
    rewrite at_return_count by (repeat constructor). cbn [snd].
    now overhead.
Qed.

(** The counted calls of the worker are those of the selected loop. *)
Lemma process_count : forall fuel,
  count_calls p (snd (sinkWriterThreadProcess w s fuel))
  = match track_ s with
    | Some _ =>
      if world_play_success w
      then count_calls p (snd (selected_loop w s fuel))
      else 0%nat
    | None => 0%nat
    end.
Proof.
  intros fuel. unfold sinkWriterThreadProcess.
  destruct (track_ s); [ | reflexivity ].
  destruct (world_play_success w);
    [ | apply count_overhead; repeat constructor ].
  rewrite at_return_count by (repeat constructor). cbn [snd].
  now overhead.
Qed.

End SelectedLoop.


Section SelectedBody.

Variable w : World.
Variable s : AudioTrackStream.



Lemma selected_body_renders : forall k,
  count_calls is_render (fst (selected_body w s k))
  = if float_array_selected w then 0%nat
    else count_calls is_write (fst (selected_body w s k)).
Proof.
  intros k. unfold float_array_selected, selected_body, body_ByteBuffer.
  destruct (world_getAudioFormat w);
    destruct (world_supportsByteBufferMethods w);
    try destruct (negb (to_size_t _ _ =? _)); reflexivity.
Qed.

Lemma selected_body_rewinds : forall k,
  world_supportsByteBufferMethods w = true ->
  loop_entered w = true ->
  count_calls is_write (fst (selected_body w s k))
  = if snd (selected_body w s k)
    then S (count_calls is_rewind (fst (selected_body w s k)))
    else count_calls is_rewind (fst (selected_body w s k)).
Proof.
  intros k Hbb. unfold loop_entered, selected_body, body_ByteBuffer.
  rewrite Hbb.
  destruct (world_getAudioFormat w); [ | | discriminate ];
    destruct (negb (to_size_t _ _ =? _)); reflexivity.
Qed.

Lemma selected_body_no_rewind : forall k,
  world_supportsByteBufferMethods w = false ->
  count_calls is_rewind (fst (selected_body w s k)) = 0%nat.
Proof.
  intros k Hbb. unfold selected_body. rewrite Hbb.
  destruct (world_getAudioFormat w); reflexivity.
Qed.

End SelectedBody.

Lemma render_is_iteration_call : forall e,
  is_render e = true -> is_iteration_call e = true.
Proof.
  intros e H. unfold is_iteration_call. now rewrite H.
Qed.

Lemma write_is_iteration_call : forall e,
  is_write e = true -> is_iteration_call e = true.
Proof.
  intros e H. unfold is_iteration_call. rewrite H.
  now destruct (is_render e).
Qed.

Lemma rewind_is_iteration_call : forall e,
  is_rewind e = true -> is_iteration_call e = true.
Proof.
  intros e H. unfold is_iteration_call. rewrite H. apply orb_true_r.
Qed.

(** In every run of the worker, whatever its length and however it ends,
    the render callback is called exactly as often as a block is written,
    except in the float loop over a managed array, which never calls
    it. *)
Theorem render_once_per_write :
  forall w s fuel,
    count_calls is_render (snd (sinkWriterThreadProcess w s fuel))
    = if float_array_selected w then 0%nat
      else count_calls is_write (snd (sinkWriterThreadProcess w s fuel)).
Proof.
  intros w s fuel.
  rewrite (process_count w s is_render render_is_iteration_call).
  rewrite (process_count w s is_write write_is_iteration_call).
  destruct (track_ s); [ | now destruct (float_array_selected w) ].
  destruct (world_play_success w); [ | now destruct (float_array_selected w) ].
  rewrite (selected_loop_count w s is_render render_is_iteration_call).
  rewrite (selected_loop_count w s is_write write_is_iteration_call).
  destruct (loop_entered w); [ | now destruct (float_array_selected w) ].
  destruct (float_array_selected w) eqn:Efloat.
  - apply count_calls_none. apply while_Forall. intros k.
    pose proof (selected_body_renders w s k) as H. rewrite Efloat in H.
    unfold count_calls in H.
    induction (fst (selected_body w s k)) as [ | e l IH];
      [ constructor | ].
    simpl in H. destruct (is_render e) eqn:Ee; [ discriminate H | ].
    constructor; auto.
  - apply while_count_eq. intros k.
    pose proof (selected_body_renders w s k) as H. now rewrite Efloat in H.
Qed.

(** The view is rewound only by the direct-memory loops, once per write
    that took the whole block: in every run the rewinds are as many as
    the writes, or one fewer. *)
Theorem rewind_once_per_full_write :
  forall w s fuel,
    let calls := snd (sinkWriterThreadProcess w s fuel) in
    if world_supportsByteBufferMethods w
    then (count_calls is_rewind calls <= count_calls is_write calls
          <= S (count_calls is_rewind calls))%nat
    else count_calls is_rewind calls = 0%nat.
Proof.
  intros w s fuel calls. subst calls.
  rewrite (process_count w s is_rewind rewind_is_iteration_call).
  rewrite (process_count w s is_write write_is_iteration_call).
  destruct (track_ s);
    [ | destruct (world_supportsByteBufferMethods w); [ lia | reflexivity ] ].
  destruct (world_play_success w);
    [ | destruct (world_supportsByteBufferMethods w); [ lia | reflexivity ] ].
  rewrite (selected_loop_count w s is_rewind rewind_is_iteration_call).
  rewrite (selected_loop_count w s is_write write_is_iteration_call).
  destruct (world_supportsByteBufferMethods w) eqn:Hbb.
  - destruct (loop_entered w) eqn:Hin; [ | lia ].
    apply while_count_between; intros k Hk;
      rewrite (selected_body_rewinds w s k Hbb Hin), Hk; reflexivity.
  - destruct (loop_entered w); [ | reflexivity ].
    apply count_calls_none. apply while_Forall. intros k.
    pose proof (selected_body_no_rewind w s k Hbb) as H.
    unfold count_calls in H.
    induction (fst (selected_body w s k)) as [ | e l IH];
      [ constructor | ].
    simpl in H. destruct (is_rewind e) eqn:Ee; [ discriminate H | ].
    constructor; auto.
Qed.





(** ** Further properties of the worker: what every call satisfies *)

Ltac forall_calls tac :=
  repeat first
    [ apply Forall_nil
    | apply Forall_cons; [ solve [ tac ] | ]
    | apply Forall_app; split ].

Ltac byte_buffer_calls tac :=
  unfold sinkWriterThreadLoopS16ByteBuffer,
    sinkWriterThreadLoopFloatByteBuffer, sinkWriterThreadLoopByteBuffer;
  let Enew := fresh "Enew" in
  destruct (world_new_native _) eqn:Enew; [ | forall_calls tac ];
  unfold LocalByteBuffer_new, LocalByteBuffer_is_valid,
    LocalByteBuffer_delete; simpl bb_;
  destruct (world_NewDirectByteBuffer _ =? 0); simpl negb; cbv iota;
  [ forall_calls tac | ];
  apply Forall_at_return; cbn [snd]; forall_calls tac;
  apply while_Forall; intros ?k; unfold body_ByteBuffer,
    LocalByteBuffer_get, LocalByteBuffer_rewind;
  destruct (negb (to_size_t _ _ =? _)); simpl; forall_calls tac.

Ltac array_calls tac :=
  unfold sinkWriterThreadLoopS16, sinkWriterThreadLoopFloat;
  destruct (world_NewArray _ =? 0); [ forall_calls tac | ];
  apply Forall_at_return; cbn [snd]; forall_calls tac;
  apply while_Forall; intros ?k; simpl; forall_calls tac.

Section EveryCall.

Variable w : World.
Variable s : AudioTrackStream.

Lemma selected_loop_calls : forall fuel,
  Forall (fun e => is_loop_call e = true) (snd (selected_loop w s fuel)).
Proof.
  intros fuel. unfold selected_loop.
  destruct (world_getAudioFormat w);
    destruct (world_supportsByteBufferMethods w); try constructor;
    first [ byte_buffer_calls reflexivity | array_calls reflexivity ].
Qed.

Lemma selected_loop_transport : forall fuel,
  Forall
    (fun e =>
       if world_supportsByteBufferMethods w then is_array_call e = false
       else is_direct_call e = false)
    (snd (selected_loop w s fuel)).
Proof.
  intros fuel. unfold selected_loop.
  destruct (world_getAudioFormat w);
    destruct (world_supportsByteBufferMethods w); try constructor;
    first [ byte_buffer_calls reflexivity | array_calls reflexivity ].
Qed.

Lemma selected_loop_renders_as_stored : forall fuel,
  Forall (render_as_stored w s) (snd (selected_loop w s fuel)).
Proof.
  intros fuel. unfold selected_loop.
  destruct (world_getAudioFormat w) eqn:Eformat;
    destruct (world_supportsByteBufferMethods w); try constructor;
    first
      [ byte_buffer_calls ltac:(simpl; rewrite ?Eformat; repeat split)
      | array_calls ltac:(simpl; rewrite ?Eformat; repeat split) ].
Qed.

Lemma selected_loop_on_run_buffers : forall fuel,
  Forall (on_run_buffers w) (snd (selected_loop w s fuel)).
Proof.
  intros fuel. unfold selected_loop.
  destruct (world_getAudioFormat w);
    destruct (world_supportsByteBufferMethods w); try constructor;
    first
      [ byte_buffer_calls ltac:(simpl; auto)
      | array_calls ltac:(simpl; auto) ].
Qed.

(** A property of the calls of the loops and of the five calls around
    them is a property of all calls of [sinkWriterThreadProcess]. *)
Lemma process_Forall : forall (P : Event -> Prop) fuel,
  Forall P (snd (selected_loop w s fuel)) ->
  Forall P [EvGetAudioFormat; EvPlay; EvSupportsByteBufferMethods;
            EvPause; EvStop] ->
  Forall P (snd (sinkWriterThreadProcess w s fuel)).
Proof.
  intros P fuel Hloop Hrest. unfold sinkWriterThreadProcess.
  pose proof (proj1 (Forall_forall P _) Hrest) as Hin.
  destruct (track_ s); [ | constructor ].
  destruct (world_play_success w).
  - apply Forall_at_return; cbn [snd].
    + apply Forall_app. split; [ | exact Hloop ].
      repeat constructor; apply Hin; simpl; auto.
    + repeat constructor; apply Hin; simpl; auto 6.
  - repeat constructor; apply Hin; simpl; auto.
Qed.

End EveryCall.

(** The entry function brackets the worker between attach and detach,
    both made through the stored VM: with a null [vm_] the thread dies on
    the first of them, before any call.  Otherwise, when the attach fails,
    the function returns at once and calls nothing else: not the track,
    not the detach.  When the attach succeeds it ends as
    [sinkWriterThreadProcess] ends, and a run that returns consists of the
    attach, the calls of [sinkWriterThreadProcess], which neither attach
    nor detach, and the detach as the last call, also when [play]
    failed. *)
Theorem entry_attach_detach_bracket :
  forall w s fuel,
    (vm_ s = nullptr ->
     sinkWriterThreadEntryFunc w s fuel = (Aborted, []))
    /\
    (vm_ s <> nullptr ->
     world_AttachCurrentThread w = false ->
     sinkWriterThreadEntryFunc w s fuel = (Returned, [EvAttachCurrentThread]))
    /\
    (vm_ s <> nullptr ->
     world_AttachCurrentThread w = true ->
     fst (sinkWriterThreadEntryFunc w s fuel)
     = fst (sinkWriterThreadProcess w s fuel) /\
     count_calls is_attach_or_detach (snd (sinkWriterThreadProcess w s fuel))
     = 0%nat /\
     (fst (sinkWriterThreadProcess w s fuel) = Returned ->
      snd (sinkWriterThreadEntryFunc w s fuel)
      = EvAttachCurrentThread
        :: snd (sinkWriterThreadProcess w s fuel)
        ++ [EvDetachCurrentThread])).
Proof.
  intros w s fuel. unfold sinkWriterThreadEntryFunc.
  split; [ intros ->; reflexivity | ].
  split; intros Hvm Hattach; apply Z.eqb_neq in Hvm; rewrite Hvm, Hattach;
    [ reflexivity | ].
  rewrite at_return_outcome. cbn [fst]. split; [ reflexivity | ]. split.
  - apply count_calls_none. apply process_Forall; [ | repeat constructor ].
    apply Forall_impl with (2 := selected_loop_calls w s fuel).
    intros [ ]; simpl; congruence.
  - intros Hret. rewrite at_return_calls. cbn [fst snd]. now rewrite Hret.
Qed.

Lemma entry_attach_detach_bracket_witness :
  snd (sinkWriterThreadEntryFunc short_write_world running_engine 5)
  = EvAttachCurrentThread
    :: snd (sinkWriterThreadProcess short_write_world running_engine 5)
    ++ [EvDetachCurrentThread].
Proof.
  destruct (entry_attach_detach_bracket short_write_world running_engine 5)
    as (_ & _ & Hattached).
  assert (Hvm : vm_ running_engine <> nullptr) by discriminate.
  destruct (Hattached Hvm eq_refl) as (_ & _ & Hcalls).
  apply Hcalls. reflexivity.
Defined.

(** The transport is chosen once per run and never mixed: on a sink with
    byte-buffer methods the worker makes no call of the managed-array
    transport, on a sink without them none of the direct-memory transport.
    When the track reports an encoding other than the two, the worker
    enters no loop: after a successful [play] it pauses and stops the
    track at once, whatever the fuel. *)
Theorem transport_is_exclusive :
  forall w s fuel,
    Forall
      (fun e =>
         if world_supportsByteBufferMethods w then is_array_call e = false
         else is_direct_call e = false)
      (snd (sinkWriterThreadProcess w s fuel))
    /\
    (forall raw,
       world_getAudioFormat w = ENCODING_other raw ->
       track_ s <> None ->
       world_play_success w = true ->
       sinkWriterThreadProcess w s fuel
       = (Returned,
          [EvGetAudioFormat; EvPlay; EvSupportsByteBufferMethods;
           EvPause; EvStop])).
Proof.
  intros w s fuel. split.
  - apply process_Forall; [ apply selected_loop_transport | ].
    destruct (world_supportsByteBufferMethods w); repeat constructor.
  - intros raw Hraw Htrack Hplay.
    unfold sinkWriterThreadProcess, selected_loop.
    destruct (track_ s); [ | congruence ].
    now rewrite Hplay, Hraw.
Qed.

Lemma transport_is_exclusive_witness :
  sinkWriterThreadProcess
    (mkWorld true (ENCODING_other 3) true true 2 3000 (Some 5000) 6000
       (fun _ => false) (fun _ => 1024) true)
    running_engine 0
  = (Returned,
     [EvGetAudioFormat; EvPlay; EvSupportsByteBufferMethods;
      EvPause; EvStop]).
Proof.
  destruct (transport_is_exclusive
              (mkWorld true (ENCODING_other 3) true true 2 3000 (Some 5000)
                 6000 (fun _ => false) (fun _ => 1024) true)
              running_engine 0) as (_ & Hother).
  apply (Hother 3); [ reflexivity | discriminate | reflexivity ].
Defined.

(** What a successful [start] hands to [pthread_create] is fit to run:
    the callback is not null and a track is stored.  The loops read the
    callback and its argument from the object at every iteration; in a run
    that finds the object as it was handed over (no later [start] or
    [stop] has rewritten them meanwhile), each call of the render callback
    goes to the callback of that [start], with its argument, with the
    channel count the track reports, the block size in frames the object
    stores, and S16 or F32 according to the track's encoding. *)
Theorem worker_renders_with_started_callback :
  forall h callback args s0 this w fuel,
    result_of (start h callback args s0) = OSLMP_RESULT_SUCCESS ->
    calls_of (start h callback args s0) = [EvPthreadCreate this] ->
    callback <> nullptr /\
    track_ this <> None /\
    Forall
      (fun e =>
         match e with
         | EvRenderCallback func _ format channels frames cargs =>
           func = callback /\ cargs = args /\
           channels = wrap_s32 (world_getChannelCount w) /\
           frames = wrap_s32 (buffer_size_in_frames_ s0) /\
           (world_getAudioFormat w = ENCODING_PCM_16BIT /\
            format = kAudioSampleFormatType_S16 \/
            world_getAudioFormat w = ENCODING_PCM_FLOAT /\
            format = kAudioSampleFormatType_F32)
         | _ => True
         end)
      (snd (sinkWriterThreadProcess w this fuel)).
Proof.
  intros h callback args s0 this w fuel. unfold start.
  destruct (Z.eqb_spec callback nullptr) as [ | Hcb]; [ discriminate | ].
  destruct (track_ s0) as [t | ] eqn:Et; [ | discriminate ].
  destruct (host_pthread_create h) as [rc handle].
  destruct (negb (rc =? 0)); [ discriminate | ].
  unfold calls_of. cbn [snd]. intros _ Hthis. injection Hthis as <-.
  split; [ exact Hcb | ]. split; [ simpl; congruence | ].
  assert (Hall : Forall (render_as_stored w (with_callback s0 callback args))
                   (snd (sinkWriterThreadProcess w
                           (with_callback s0 callback args) fuel))).
  { apply process_Forall; [ apply selected_loop_renders_as_stored | ].
    repeat constructor. }
  apply Forall_impl with (2 := Hall).
  intros [ ]; simpl; auto.
  intros (-> & -> & -> & -> & Hformat). repeat split.
  destruct (world_getAudioFormat w); [ left | right | contradiction ]; auto.
Qed.

Lemma worker_renders_with_started_callback_witness :
  Forall
    (fun e =>
       match e with
       | EvRenderCallback func _ format channels frames cargs =>
         func = 4096 /\ cargs = 8192 /\
         channels = wrap_s32 (world_getChannelCount direct_world) /\
         frames = wrap_s32 (buffer_size_in_frames_ initialized_engine) /\
         (world_getAudioFormat direct_world = ENCODING_PCM_16BIT /\
          format = kAudioSampleFormatType_S16 \/
          world_getAudioFormat direct_world = ENCODING_PCM_FLOAT /\
          format = kAudioSampleFormatType_F32)
       | _ => True
       end)
    (snd (sinkWriterThreadProcess direct_world
            (with_callback initialized_engine 4096 8192) 3)).
Proof.
  assert (Hok : result_of (start good_host 4096 8192 initialized_engine)
                = OSLMP_RESULT_SUCCESS) by reflexivity.
  assert (Hcalls : calls_of (start good_host 4096 8192 initialized_engine)
                   = [EvPthreadCreate
                        (with_callback initialized_engine 4096 8192)])
    by reflexivity.
  exact (proj2 (proj2 (worker_renders_with_started_callback good_host 4096
                         8192 initialized_engine _ direct_world 3 Hok
                         Hcalls))).
Defined.

(** ** Further properties of the worker: buffers and resources *)

Lemma while_count_zero : forall w body p fuel k,
  (forall j, Forall (fun e => p e = false) (fst (body j))) ->
  count_calls p (snd (while_not_stop_request w body fuel k)) = 0%nat.
Proof.
  intros w body p fuel k H. apply count_calls_none. now apply while_Forall.
Qed.

Ltac outside_iterations :=
  rewrite ?at_return_calls; cbn [fst snd];
  rewrite ?count_calls_app;
  rewrite ?while_count_zero
    by (intros ?j; unfold body_ByteBuffer, LocalByteBuffer_rewind;
        try destruct (negb (to_size_t _ _ =? _)); repeat constructor).

Section Resources.

Variable w : World.
Variable s : AudioTrackStream.

Lemma selected_loop_allocations : forall fuel,
  (count_calls is_allocation (snd (selected_loop w s fuel)) <= 1)%nat /\
  (count_calls is_view_creation (snd (selected_loop w s fuel)) <= 1)%nat.
Proof.
  intros fuel. unfold selected_loop.
  destruct (world_getAudioFormat w);
    destruct (world_supportsByteBufferMethods w);
    try (unfold count_calls; simpl; lia).
  - unfold sinkWriterThreadLoopS16ByteBuffer, sinkWriterThreadLoopByteBuffer.
    destruct (world_new_native w); [ | unfold count_calls; simpl; lia ].
    unfold LocalByteBuffer_new, LocalByteBuffer_is_valid,
      LocalByteBuffer_delete. simpl bb_.
    destruct (world_NewDirectByteBuffer w =? 0); simpl negb; cbv iota;
      [ unfold count_calls; simpl; lia | ].
    outside_iterations.
    destruct (fst (while_not_stop_request w _ fuel 0));
      unfold count_calls; simpl; lia.
  - unfold sinkWriterThreadLoopS16.
    destruct (world_NewArray w =? 0); [ unfold count_calls; simpl; lia | ].
    outside_iterations.
    destruct (fst (while_not_stop_request w _ fuel 0));
      unfold count_calls; simpl; lia.
  - unfold sinkWriterThreadLoopFloatByteBuffer,
      sinkWriterThreadLoopByteBuffer.
    destruct (world_new_native w); [ | unfold count_calls; simpl; lia ].
    unfold LocalByteBuffer_new, LocalByteBuffer_is_valid,
      LocalByteBuffer_delete. simpl bb_.
    destruct (world_NewDirectByteBuffer w =? 0); simpl negb; cbv iota;
      [ unfold count_calls; simpl; lia | ].
    outside_iterations.
    destruct (fst (while_not_stop_request w _ fuel 0));
      unfold count_calls; simpl; lia.
  - unfold sinkWriterThreadLoopFloat.
    destruct (world_NewArray w =? 0); [ unfold count_calls; simpl; lia | ].
    outside_iterations.
    destruct (fst (while_not_stop_request w _ fuel 0));
      unfold count_calls; simpl; lia.
Qed.


(** Counting a class that the five calls around the loop are not in. *)
Lemma process_count_outside : forall p fuel,
  Forall (fun e => p e = false)
    [EvGetAudioFormat; EvPlay; EvSupportsByteBufferMethods; EvPause; EvStop] ->
  count_calls p (snd (sinkWriterThreadProcess w s fuel))
  = match track_ s with
    | Some _ =>
      if world_play_success w
      then count_calls p (snd (selected_loop w s fuel))
      else 0%nat
    | None => 0%nat
    end.
Proof.
  intros p fuel H. unfold sinkWriterThreadProcess.
  pose proof (proj1 (Forall_forall _ _) H) as Hin. simpl in Hin.
  assert (H1 := Hin EvGetAudioFormat). assert (H2 := Hin EvPlay).
  assert (H3 := Hin EvSupportsByteBufferMethods).
  assert (H4 := Hin EvPause). assert (H5 := Hin EvStop).
  destruct (track_ s); [ | reflexivity ].
  destruct (world_play_success w).
  - rewrite at_return_calls. cbn [fst snd]. rewrite !count_calls_app.
    destruct (fst (selected_loop w s fuel)); unfold count_calls; simpl;
      rewrite ?H1, ?H2, ?H3, ?H4, ?H5 by auto 6; simpl; lia.
  - unfold count_calls. simpl. rewrite H1, H2, H3 by auto 6. reflexivity.
Qed.

End Resources.

(** One block of samples serves the whole run.  The worker allocates at
    most one block (a managed array or a native block) and creates at most
    one view, before the first iteration; every acquire, render, release,
    write and rewind of the run works on that array, or on that native
    block and that view. *)
Theorem one_buffer_per_run :
  forall w s fuel,
    let calls := snd (sinkWriterThreadProcess w s fuel) in
    Forall (on_run_buffers w) calls /\
    (count_calls is_allocation calls <= 1)%nat /\
    (count_calls is_view_creation calls <= 1)%nat.
Proof.
  intros w s fuel calls. subst calls. split; [ | split ].
  - apply process_Forall; [ apply selected_loop_on_run_buffers | ].
    repeat constructor.
  - rewrite process_count_outside by (repeat constructor).
    destruct (track_ s); [ | lia ].
    destruct (world_play_success w); [ | lia ].
    apply selected_loop_allocations.
  - rewrite process_count_outside by (repeat constructor).
    destruct (track_ s); [ | lia ].
    destruct (world_play_success w); [ | lia ].
    apply selected_loop_allocations.
Qed.



(** When no loop is entered (the array or the view is null, or the
    encoding is neither of the two), the worker neither renders nor writes
    nor rewinds, whatever the fuel; and, unless [new] throws, it returns
    at once. *)
Theorem allocation_failure_skips_loop :
  forall w s fuel,
    loop_entered w = false ->
    count_calls is_iteration_call (snd (sinkWriterThreadProcess w s fuel))
    = 0%nat /\
    (track_ s <> None ->
     world_new_native w <> None ->
     fst (sinkWriterThreadProcess w s fuel) = Returned).
Proof.
  intros w s fuel Hout. split.
  - rewrite (process_count w s is_iteration_call (fun e H => H)).
    rewrite (selected_loop_count w s is_iteration_call (fun e H => H)).
    rewrite Hout. destruct (track_ s); [ | reflexivity ].
    now destruct (world_play_success w).
  - intros Htrack Hnew. unfold sinkWriterThreadProcess.
    destruct (track_ s); [ | congruence ].
    destruct (world_play_success w); [ | reflexivity ].
    rewrite at_return_outcome. cbn [fst].
    revert Hout. unfold loop_entered, selected_loop,
      sinkWriterThreadLoopS16ByteBuffer, sinkWriterThreadLoopFloatByteBuffer,
      sinkWriterThreadLoopByteBuffer, sinkWriterThreadLoopS16,
      sinkWriterThreadLoopFloat, LocalByteBuffer_new,
      LocalByteBuffer_is_valid.
    simpl bb_.
    destruct (world_new_native w); [ | congruence ].
    destruct (world_getAudioFormat w);
      destruct (world_supportsByteBufferMethods w); try reflexivity;
      intros H; rewrite negb_false_iff in H; rewrite H; reflexivity.
Qed.

Lemma allocation_failure_skips_loop_witness :
  count_calls is_iteration_call
    (snd (sinkWriterThreadProcess
            (mkWorld true ENCODING_PCM_16BIT true true 2 3000 (Some 5000) 0
               (fun _ => false) (fun _ => 1024) true)
            running_engine 0))
  = 0%nat
  /\ fst (sinkWriterThreadProcess
            (mkWorld true ENCODING_PCM_16BIT true true 2 3000 (Some 5000) 0
               (fun _ => false) (fun _ => 1024) true)
            running_engine 0)
     = Returned.
Proof.
  destruct (allocation_failure_skips_loop
              (mkWorld true ENCODING_PCM_16BIT true true 2 3000 (Some 5000) 0
                 (fun _ => false) (fun _ => 1024) true)
              running_engine 0 eq_refl) as [Hnone Hret].
  split; [ exact Hnone | apply Hret; discriminate ].
Defined.

(** In the two direct-memory loops every write comes right after the
    render callback of its iteration, called on the native block with the
    format of the loop, the channel count of the track, the block size in
    frames and the stored argument. *)
Theorem direct_memory_loops_render_before_write :
  forall w s fuel format run before view size mode result after,
    (format = kAudioSampleFormatType_S16 /\
     run = sinkWriterThreadLoopS16ByteBuffer w s fuel) \/
    (format = kAudioSampleFormatType_F32 /\
     run = sinkWriterThreadLoopFloatByteBuffer w s fuel) ->
    snd run = before ++ EvWriteByteBuffer view size mode result :: after ->
    exists earlier block,
      before
      = earlier ++
        [EvRenderCallback (callback_func_ s) (NativeBlock block) format
           (wrap_s32 (world_getChannelCount w))
           (wrap_s32 (buffer_size_in_frames_ s)) (callback_args_ s)].
Proof.
  intros w s fuel format run before view size mode result after
    [[-> ->] | [-> ->]] H.
  - exact (proj1 (ByteBuffer_write_then_rewind w s kAudioSampleFormatType_S16
                      fuel before view size mode result after H)).
  - exact (proj1 (ByteBuffer_write_then_rewind w s kAudioSampleFormatType_F32
                      fuel before view size mode result after H)).
Qed.

Lemma direct_memory_loops_render_before_write_witness :
  exists earlier block,
    [EvGetChannelCount; EvNewNative 2 512;
     EvNewDirectByteBuffer 5000 1024 6000; EvFindRewindMethod;
     EvRenderCallback 4096 (NativeBlock 5000) kAudioSampleFormatType_S16
       2 256 8192]
    = earlier ++
      [EvRenderCallback (callback_func_ running_engine) (NativeBlock block)
         kAudioSampleFormatType_S16
         (wrap_s32 (world_getChannelCount direct_world))
         (wrap_s32 (buffer_size_in_frames_ running_engine))
         (callback_args_ running_engine)].
Proof.
  assert (Hrun :
    (kAudioSampleFormatType_S16 = kAudioSampleFormatType_S16 /\
     sinkWriterThreadLoopS16ByteBuffer direct_world running_engine 3
     = sinkWriterThreadLoopS16ByteBuffer direct_world running_engine 3) \/
    (kAudioSampleFormatType_S16 = kAudioSampleFormatType_F32 /\
     sinkWriterThreadLoopS16ByteBuffer direct_world running_engine 3
     = sinkWriterThreadLoopFloatByteBuffer direct_world running_engine 3))
    by (left; split; reflexivity).
  assert (Hfirst :
    snd (sinkWriterThreadLoopS16ByteBuffer direct_world running_engine 3)
    = [EvGetChannelCount; EvNewNative 2 512;
       EvNewDirectByteBuffer 5000 1024 6000; EvFindRewindMethod;
       EvRenderCallback 4096 (NativeBlock 5000) kAudioSampleFormatType_S16
         2 256 8192]
      ++ EvWriteByteBuffer 6000 1024 WRITE_BLOCKING 1024
      :: [EvRewind 6000;
          EvRenderCallback 4096 (NativeBlock 5000)
            kAudioSampleFormatType_S16 2 256 8192;
          EvWriteByteBuffer 6000 1024 WRITE_BLOCKING 1000;
          EvDeleteLocalRef 6000; EvDeleteNative 5000])
    by reflexivity.
  exact (direct_memory_loops_render_before_write direct_world running_engine
           3 kAudioSampleFormatType_S16 _ _ _ _ _ _ _ Hrun Hfirst).
Defined.

Lemma sinkWriterThreadLoopS16_renders_before_write_witness :
  512 = block_elements short_write_world running_engine
  /\ exists earlier,
       [EvGetChannelCount; EvNewShortArray 512 3000; EvArrayAcquire 3000;
        EvRenderCallback 4096 (ArrayElements 3000)
          kAudioSampleFormatType_S16 2 256 8192;
        EvArrayRelease 3000]
       = earlier ++
         [EvArrayAcquire 3000;
          EvRenderCallback (callback_func_ running_engine)
            (ArrayElements 3000) kAudioSampleFormatType_S16
            (wrap_s32 (world_getChannelCount short_write_world))
            (wrap_s32 (buffer_size_in_frames_ running_engine))
            (callback_args_ running_engine);
          EvArrayRelease 3000].
Proof.
  assert (Hfirst :
    snd (sinkWriterThreadLoopS16 short_write_world running_engine 1)
    = [EvGetChannelCount; EvNewShortArray 512 3000; EvArrayAcquire 3000;
       EvRenderCallback 4096 (ArrayElements 3000)
         kAudioSampleFormatType_S16 2 256 8192;
       EvArrayRelease 3000]
      ++ EvWriteArray 3000 0 512 WRITE_DEFAULT 512 :: [])
    by reflexivity.
  exact (sinkWriterThreadLoopS16_renders_before_write short_write_world
           running_engine 1 _ _ _ _ _ _ _ Hfirst).
Defined.

(** ** Further properties of the worker: sizes *)

Lemma wrap_s32_range : forall z, - 2 ^ 31 <= wrap_s32 z < 2 ^ 31.
Proof.
  intros z. unfold wrap_s32.
  pose proof (Z.mod_pos_bound (z + 2 ^ 31) (2 ^ 32) ltac:(lia)). lia.
Qed.

Lemma wrap_s32_small : forall z, - 2 ^ 31 <= z < 2 ^ 31 -> wrap_s32 z = z.
Proof.
  intros z Hz. unfold wrap_s32. rewrite Z.mod_small; lia.
Qed.

Lemma to_size_t_small : forall lp64 z,
  0 <= z < 2 ^ 32 -> to_size_t lp64 z = z.
Proof.
  intros lp64 z Hz. unfold to_size_t, size_t_bits.
  apply Z.mod_small. destruct lp64; lia.
Qed.

Lemma to_size_t_negative : forall lp64 z,
  - 2 ^ 31 <= z < 0 -> 2 ^ 31 <= to_size_t lp64 z.
Proof.
  intros lp64 z Hz. unfold to_size_t, size_t_bits.
  destruct lp64.
  - replace z with (z + 2 ^ 64 + (- 1) * 2 ^ 64) by lia.
    rewrite Z.mod_add by lia. rewrite Z.mod_small; lia.
  - replace z with (z + 2 ^ 32 + (- 1) * 2 ^ 32) by lia.
    rewrite Z.mod_add by lia. rewrite Z.mod_small; lia.
Qed.

(** For a stereo track and a block below [2 ^ 28] frames nothing wraps,
    on either ABI: the render callback is given the stored block size, the
    block is twice as many samples, four times as many bytes in S16 and
    eight times in F32; and the test after the write is exact: a write is
    taken for whole exactly when it reports the samples (managed array) or
    the bytes (direct memory) of the block, so that no negative result
    passes for a whole write. *)
Theorem block_sizes_without_wrap :
  forall w s,
    world_getChannelCount w = 2 ->
    0 <= buffer_size_in_frames_ s < 2 ^ 28 ->
    let frames := buffer_size_in_frames_ s in
    wrap_s32 frames = frames /\
    block_elements w s = 2 * frames /\
    block_bytes w s kAudioSampleFormatType_S16 = 4 * frames /\
    block_bytes w s kAudioSampleFormatType_F32 = 8 * frames /\
    (forall k,
       world_getAudioFormat w = ENCODING_PCM_16BIT \/
       world_getAudioFormat w = ENCODING_PCM_FLOAT ->
       (short_write w s k = false
        <-> wrap_s32 (world_write w k)
            = if world_supportsByteBufferMethods w
              then match world_getAudioFormat w with
                   | ENCODING_PCM_FLOAT => 8 * frames
                   | _ => 4 * frames
                   end
              else 2 * frames) /\
       (wrap_s32 (world_write w k) < 0 -> short_write w s k = true)).
Proof.
  intros w s Hch Hframes frames. subst frames.
  assert (Hf : wrap_s32 (buffer_size_in_frames_ s) = buffer_size_in_frames_ s)
    by (apply wrap_s32_small; lia).
  assert (He : block_elements w s = 2 * buffer_size_in_frames_ s).
  { unfold block_elements. rewrite Hch, Hf.
    rewrite (wrap_s32_small 2) by lia. apply wrap_s32_small. lia. }
  assert (H16 : block_bytes w s kAudioSampleFormatType_S16
                = 4 * buffer_size_in_frames_ s).
  { unfold block_bytes, sample_size, sizeof_int16_t. rewrite He.
    rewrite (to_size_t_small _ (2 * _)) by lia.
    rewrite to_size_t_small; lia. }
  assert (H32 : block_bytes w s kAudioSampleFormatType_F32
                = 8 * buffer_size_in_frames_ s).
  { unfold block_bytes, sample_size, sizeof_float. rewrite He.
    rewrite (to_size_t_small _ (2 * _)) by lia.
    rewrite to_size_t_small; lia. }
  repeat split; auto.
  - unfold short_write. rewrite He, H16, H32.
    pose proof (wrap_s32_range (world_write w k)) as Hr.
    destruct H as [-> | ->];
      destruct (world_supportsByteBufferMethods w);
      rewrite negb_false_iff; intros Heq;
      try (apply Z.eqb_eq in Heq; exact Heq);
      apply Z.eqb_eq in Heq;
      (destruct (Z_lt_ge_dec (wrap_s32 (world_write w k)) 0) as [Hneg | Hpos];
       [ pose proof (to_size_t_negative (world_lp64 w)
                       (wrap_s32 (world_write w k)) ltac:(lia)); lia
       | rewrite to_size_t_small in Heq by lia; exact Heq ]).
  - unfold short_write. rewrite He, H16, H32.
    destruct H as [-> | ->];
      destruct (world_supportsByteBufferMethods w);
      rewrite negb_false_iff; intros ->;
      try (apply Z.eqb_refl);
      rewrite to_size_t_small by lia; apply Z.eqb_refl.
  - intros Hneg. unfold short_write. rewrite He, H16, H32.
    pose proof (wrap_s32_range (world_write w k)) as Hr.
    pose proof (to_size_t_negative (world_lp64 w)
                  (wrap_s32 (world_write w k)) ltac:(lia)) as Hbig.
    destruct H as [-> | ->];
      destruct (world_supportsByteBufferMethods w);
      rewrite negb_true_iff; apply Z.eqb_neq; lia.
Qed.

Lemma block_sizes_without_wrap_witness :
  block_elements direct_world running_engine = 2 * 256
  /\ block_bytes direct_world running_engine kAudioSampleFormatType_S16
     = 4 * 256.
Proof.
  assert (Hch : world_getChannelCount direct_world = 2) by reflexivity.
  assert (Hframes : 0 <= buffer_size_in_frames_ running_engine < 2 ^ 28)
    by (split; [ discriminate | reflexivity ]).
  destruct (block_sizes_without_wrap direct_world running_engine Hch Hframes)
    as (_ & He & H16 & _).
  split; [ exact He | exact H16 ].
Defined.
